(** * DistributionModel: models whose actions are drawn from distributions
      parametrized by a neural network.

    Shallow embedding of [tensorforce/models/distribution_model.py].

    - Python dictionaries are association lists in insertion order with
      unique keys ([dict]); [d[k]] on a missing key raises [KeyError].
    - [entropy_regularization] is a Python float: a binary64 value with the
      IEEE comparisons of [PrimFloat].
    - Boolean tensors ([deterministic], [update]) are the booleans they
      evaluate to; numeric tensors are values of an abstract type [Tensor]
      on which the TensorFlow operators act.
    - TensorFlow, [tensorforce.util], [Network] and the methods of the
      distributions are the members of the class [Framework]; the methods of
      the superclass are the members of the class [MemoryModel].
    - A method of the model is a computation in the monad [M]: it reads and
      updates the object [self], may raise, and records, in program order,
      the calls by which it has its network and its distributions build or
      register tensors ([call]). Accessors ([get_variables], [get_summaries],
      [internals_spec]) are read without a record. *)

From Stdlib Require Import ZArith.
From Stdlib Require Import Floats.PrimFloat Floats.SpecFloat Floats.FloatOps
  Floats.FloatAxioms.
From stdpp Require Import base option strings list gmap sorting.

Set Warnings "-register-all".

(** ** Python values that occur in specifications *)

Inductive value : Type :=
  | VNone
  | VBool (b : bool)
  | VInt (n : Z)
  | VFloat (x : float)
  | VStr (s : string)
  | VTuple (items : list value)
  | VSet (labels : gset string)
  | VDict (items : list (string * value)).

(** [v == s] for a string literal [s]. *)
Definition value_eq_str (v : value) (s : string) : bool :=
  match v with
  | VStr s' => bool_decide (s' = s)
  | _ => false
  end.

(** ** Exceptions *)

Inductive exn : Type :=
  | AssertionError (lineno : Z)   (* an [assert] of this file, by its line *)
  | KeyError (key : string)
  | IndexError
  | AttributeError (attr : string) (* attribute access on [None] *)
  | TypeError (what : string)      (* iterating or subscripting [None] *)
  | Raised (what : string).        (* raised inside a superclass method *)

Inductive result (A : Type) : Type :=
  | Ok (a : A)
  | Err (e : exn).
Arguments Ok {A} a.
Arguments Err {A} e.

(** ** Dictionaries *)

Module PyDict.

Definition dict (V : Type) : Type := list (string * V).

Section ops.
Context {V : Type}.
Implicit Types (d : dict V) (k : string) (v : V).

Definition keys d : list string := d.*1.
Definition values d : list V := d.*2.
Definition items d : list (string * V) := d.
Definition len d : nat := length d.

(** [d.get(k)] *)
Fixpoint get k d : option V :=
  match d with
  | [] => None
  | (k', v) :: d' => if decide (k' = k) then Some v else get k d'
  end.

(** [k in d] *)
Definition mem k d : bool := bool_decide (is_Some (get k d)).

(** [d[k] = v]: an existing key keeps its position, a new one goes last. *)
Fixpoint set k v d : dict V :=
  match d with
  | [] => [(k, v)]
  | (k', v') :: d' =>
      if decide (k' = k) then (k, v) :: d' else (k', v') :: set k v d'
  end.

(** [d[k]] *)
Definition getitem k d : result V :=
  match get k d with
  | Some v => Ok v
  | None => Err (KeyError k)
  end.

(** The representation invariant: no key occurs twice. *)
Definition wf d : Prop := NoDup (keys d).

End ops.

End PyDict.

Abbreviation dict := PyDict.dict.

(** ** Distribution objects

    A distribution object is the constructor call that built it; the classes
    themselves live in [tensorforce.core.distributions]. *)

Inductive Distribution : Type :=
  | Bernoulli (shape : value) (summary_labels : gset string)
  | Categorical (shape num_actions : value) (summary_labels : gset string)
  | Beta (shape min_value max_value : value) (summary_labels : gset string)
  | Gaussian (shape : value) (summary_labels : gset string)
  | Distribution_from_spec (spec : value) (kwargs : dict value).

(** ** What the model takes from TensorFlow, [tensorforce.util], [Network]
       and [Distribution]

    These calls build graph nodes and return; none of them raises. *)

Class Framework : Type := {
  Tensor : Type;
  Obj : Type;          (* objects handed through unread: states, internals, ... *)
  Network : Type;
  TfVariable : Type;
  TfSummary : Type;
  (* tensorflow *)
  tf_stop_gradient : Tensor → Tensor;
  tf_reshape : Tensor → list Z → Tensor;
  tf_concat : list Tensor → Z → Tensor;
  tf_reduce_mean : Tensor → Z → Tensor;
  tf_add : Tensor → Tensor → Tensor;
  tf_scale : float → Tensor → Tensor;           (* [c * t], [c] a Python float *)
  tf_summary_scalar : string → Tensor → TfSummary;
  (* tensorforce.util *)
  util_shape : Tensor → list Z;
  util_prod : list Z → Z;
  (* tensorforce.core.networks.Network *)
  Network_from_spec : value → dict value → Network;
  Network_internals_spec : Network → dict value;
  Network_apply : Network → Obj → Obj → bool → Tensor * Obj;
  Network_regularization_loss : Network → option Tensor;
  Network_get_variables : Network → bool → list TfVariable;
  Network_get_summaries : Network → list TfSummary;
  (* tensorforce.core.distributions.Distribution *)
  Distribution_parameterize : Distribution → Tensor → list Tensor;
  Distribution_sample : Distribution → list Tensor → bool → Tensor;
  Distribution_entropy : Distribution → list Tensor → Tensor;
  Distribution_kl_divergence : Distribution → list Tensor → list Tensor → Tensor;
  Distribution_regularization_loss : Distribution → option Tensor;
  Distribution_get_variables : Distribution → bool → list TfVariable;
  Distribution_get_summaries : Distribution → list TfSummary;
}.

(** The result of [tf.make_template(name_, func_, custom_getter_)]; [func_]
    is a bound method of the model, named by its attribute. *)
Inductive Template `{F : Framework} : Type :=
  | make_template (name_ : string) (func_ : string) (custom_getter_ : Obj).

(** A value of the dictionary of optimizer arguments. *)
Inductive argument `{F : Framework} : Type :=
  | ArgTemplate (fn : option Template)
  | ArgObj (o : Obj).

(** The calls by which a method has its network and its distributions build
    or register tensors. *)
Inductive call `{F : Framework} : Type :=
  | CallApply (x internals : Obj) (update return_internals : bool)
  | CallSetNamedTensor (name : string) (tensor : Tensor)
  | CallNetworkRegularizationLoss
  | CallParameterize (d : Distribution) (x : Tensor)
  | CallSample (d : Distribution) (distr_params : list Tensor) (deterministic : bool)
  | CallEntropy (d : Distribution) (distr_params : list Tensor)
  | CallKlDivergence (d : Distribution) (distr_params1 distr_params2 : list Tensor)
  | CallRegularizationLoss (d : Distribution).

(** ** The model object *)

Record Model `{F : Framework} : Type := {
  (* attributes assigned in this class *)
  network_spec : value;
  distributions_spec : option (dict value);
  entropy_regularization : option float;
  requires_deterministic : bool;
  network : option Network;
  distributions : option (dict Distribution);
  fn_kl_divergence : option Template;
  (* attributes of the superclasses that this class reads or writes *)
  actions_spec : dict (dict value);
  summary_labels : gset string;
  internals_spec : dict value;
  summaries : list TfSummary;
  (* every other attribute *)
  inherited : dict Obj;
}.

(** The sixteen constructor arguments that go to the superclass unchanged. *)
Record base_args `{F : Framework} : Type := {
  arg_states : Obj; arg_actions : Obj; arg_scope : Obj; arg_device : Obj;
  arg_saver : Obj; arg_summarizer : Obj; arg_distributed : Obj;
  arg_batching_capacity : Obj; arg_variable_noise : Obj;
  arg_states_preprocessing : Obj; arg_actions_exploration : Obj;
  arg_reward_preprocessing : Obj; arg_update_mode : Obj; arg_memory : Obj;
  arg_optimizer : Obj; arg_discount : Obj;
}.

(** The seven arguments of [optimizer_arguments]. *)
Record batch `{F : Framework} : Type := {
  b_states : Obj; b_internals : Obj; b_actions : Obj; b_terminal : Obj;
  b_reward : Obj; b_next_states : Obj; b_next_internals : Obj;
}.

(** ** The superclass

    A method of [MemoryModel] runs on the whole object; it returns, or raises
    an exception described by a string. [__init__] and [initialize] may
    assign any attribute. *)

Class MemoryModel `{F : Framework} : Type := {
  super_init : base_args → Model → string + Model;
  super_initialize : Obj → Model → string + Model;
  super_tf_regularization_losses : Obj → Obj → bool → Model → string + dict Tensor;
  super_optimizer_arguments : batch → Model → string + dict argument;
  super_get_variables : bool → bool → Model → string + list TfVariable;
  super_get_summaries : Model → string + list TfSummary;
}.

(** Attribute assignment, [self.x = v]. *)

Section assign.
Context `{F : Framework}.
Implicit Type m : Model.

Definition set_network_spec (v : value) m : Model :=
  {| network_spec := v;
     distributions_spec := distributions_spec m;
     entropy_regularization := entropy_regularization m;
     requires_deterministic := requires_deterministic m;
     network := network m;
     distributions := distributions m;
     fn_kl_divergence := fn_kl_divergence m;
     actions_spec := actions_spec m;
     summary_labels := summary_labels m;
     internals_spec := internals_spec m;
     summaries := summaries m;
     inherited := inherited m |}.

Definition set_distributions_spec (v : option (dict value)) m : Model :=
  {| network_spec := network_spec m;
     distributions_spec := v;
     entropy_regularization := entropy_regularization m;
     requires_deterministic := requires_deterministic m;
     network := network m;
     distributions := distributions m;
     fn_kl_divergence := fn_kl_divergence m;
     actions_spec := actions_spec m;
     summary_labels := summary_labels m;
     internals_spec := internals_spec m;
     summaries := summaries m;
     inherited := inherited m |}.

Definition set_entropy_regularization (v : option float) m : Model :=
  {| network_spec := network_spec m;
     distributions_spec := distributions_spec m;
     entropy_regularization := v;
     requires_deterministic := requires_deterministic m;
     network := network m;
     distributions := distributions m;
     fn_kl_divergence := fn_kl_divergence m;
     actions_spec := actions_spec m;
     summary_labels := summary_labels m;
     internals_spec := internals_spec m;
     summaries := summaries m;
     inherited := inherited m |}.

Definition set_requires_deterministic (v : bool) m : Model :=
  {| network_spec := network_spec m;
     distributions_spec := distributions_spec m;
     entropy_regularization := entropy_regularization m;
     requires_deterministic := v;
     network := network m;
     distributions := distributions m;
     fn_kl_divergence := fn_kl_divergence m;
     actions_spec := actions_spec m;
     summary_labels := summary_labels m;
     internals_spec := internals_spec m;
     summaries := summaries m;
     inherited := inherited m |}.

Definition set_network (v : option Network) m : Model :=
  {| network_spec := network_spec m;
     distributions_spec := distributions_spec m;
     entropy_regularization := entropy_regularization m;
     requires_deterministic := requires_deterministic m;
     network := v;
     distributions := distributions m;
     fn_kl_divergence := fn_kl_divergence m;
     actions_spec := actions_spec m;
     summary_labels := summary_labels m;
     internals_spec := internals_spec m;
     summaries := summaries m;
     inherited := inherited m |}.

Definition set_distributions (v : option (dict Distribution)) m : Model :=
  {| network_spec := network_spec m;
     distributions_spec := distributions_spec m;
     entropy_regularization := entropy_regularization m;
     requires_deterministic := requires_deterministic m;
     network := network m;
     distributions := v;
     fn_kl_divergence := fn_kl_divergence m;
     actions_spec := actions_spec m;
     summary_labels := summary_labels m;
     internals_spec := internals_spec m;
     summaries := summaries m;
     inherited := inherited m |}.

Definition set_fn_kl_divergence (v : option Template) m : Model :=
  {| network_spec := network_spec m;
     distributions_spec := distributions_spec m;
     entropy_regularization := entropy_regularization m;
     requires_deterministic := requires_deterministic m;
     network := network m;
     distributions := distributions m;
     fn_kl_divergence := v;
     actions_spec := actions_spec m;
     summary_labels := summary_labels m;
     internals_spec := internals_spec m;
     summaries := summaries m;
     inherited := inherited m |}.

Definition set_internals_spec (v : dict value) m : Model :=
  {| network_spec := network_spec m;
     distributions_spec := distributions_spec m;
     entropy_regularization := entropy_regularization m;
     requires_deterministic := requires_deterministic m;
     network := network m;
     distributions := distributions m;
     fn_kl_divergence := fn_kl_divergence m;
     actions_spec := actions_spec m;
     summary_labels := summary_labels m;
     internals_spec := v;
     summaries := summaries m;
     inherited := inherited m |}.

Definition set_summaries (v : list TfSummary) m : Model :=
  {| network_spec := network_spec m;
     distributions_spec := distributions_spec m;
     entropy_regularization := entropy_regularization m;
     requires_deterministic := requires_deterministic m;
     network := network m;
     distributions := distributions m;
     fn_kl_divergence := fn_kl_divergence m;
     actions_spec := actions_spec m;
     summary_labels := summary_labels m;
     internals_spec := internals_spec m;
     summaries := v;
     inherited := inherited m |}.

End assign.

(** ** The monad of methods *)

Section monad.
Context `{F : Framework}.

Record world : Type := {
  self : Model;
  calls : list call;
}.

Definition M (A : Type) : Type := world → result (A * world).

#[export] Instance M_ret : MRet M := λ A a w, Ok (a, w).
#[export] Instance M_bind : MBind M := λ A B f c w,
  match c w with
  | Ok (a, w') => f a w'
  | Err e => Err e
  end.

Definition raise {A} (e : exn) : M A := λ _, Err e.
Definition get_self : M Model := λ w, Ok (self w, w).
Definition modify_self (f : Model → Model) : M unit :=
  λ w, Ok ((), {| self := f (self w); calls := calls w |}).
Definition log (c : call) : M unit :=
  λ w, Ok ((), {| self := self w; calls := calls w ++ [c] |}).
Definition lift {A} (r : result A) : M A :=
  λ w, match r with Ok a => Ok (a, w) | Err e => Err e end.

(** A superclass method that may assign attributes. *)
Definition super_do (f : Model → string + Model) : M unit :=
  λ w, match f (self w) with
       | inr m => Ok ((), {| self := m; calls := calls w |})
       | inl what => Err (Raised what)
       end.
(** A superclass method called for its result. *)
Definition super_get {A} (f : Model → string + A) : M A :=
  λ w, match f (self w) with
       | inr a => Ok (a, w)
       | inl what => Err (Raised what)
       end.

(** [for x in l: acc = body(acc, x)] *)
Fixpoint for_each {A B} (l : list B) (body : A → B → M A) (acc : A) : M A :=
  match l with
  | [] => mret acc
  | x :: l' => acc' ← body acc x; for_each l' body acc'
  end.

(** [t[i]] on a tuple *)
Definition index {A} (t : list A) (i : nat) : M A :=
  match t !! i with
  | Some x => mret x
  | None => raise IndexError
  end.

(** [self.network] about to be dereferenced for the attribute [attr], and
    [self.distributions] about to be used in a way that raises [e] on
    [None]. *)
Definition the_network (attr : string) : M Network :=
  m ← get_self;
  match network m with
  | Some net => mret net
  | None => raise (AttributeError attr)
  end.
Definition the_distributions (e : exn) : M (dict Distribution) :=
  m ← get_self;
  match distributions m with
  | Some ds => mret ds
  | None => raise e
  end.

(** [assert cond], the statement being on line [lineno]. *)
Definition assert_ (lineno : Z) (cond : bool) : M unit :=
  if cond then mret () else raise (AssertionError lineno).

(** Calls to the collaborators, recorded. *)
Definition network_apply (net : Network) (x internals : Obj)
    (update return_internals : bool) : M (Tensor * Obj) :=
  _ ← log (CallApply x internals update return_internals);
  mret (Network_apply net x internals update).
Definition network_set_named_tensor (name : string) (t : Tensor) : M unit :=
  log (CallSetNamedTensor name t).
Definition network_regularization_loss (net : Network) : M (option Tensor) :=
  _ ← log CallNetworkRegularizationLoss;
  mret (Network_regularization_loss net).
Definition parameterize (d : Distribution) (x : Tensor) : M (list Tensor) :=
  _ ← log (CallParameterize d x);
  mret (Distribution_parameterize d x).
Definition sample (d : Distribution) (distr_params : list Tensor)
    (deterministic : bool) : M Tensor :=
  _ ← log (CallSample d distr_params deterministic);
  mret (Distribution_sample d distr_params deterministic).
Definition entropy (d : Distribution) (distr_params : list Tensor) : M Tensor :=
  _ ← log (CallEntropy d distr_params);
  mret (Distribution_entropy d distr_params).
Definition kl_divergence (d : Distribution)
    (distr_params1 distr_params2 : list Tensor) : M Tensor :=
  _ ← log (CallKlDivergence d distr_params1 distr_params2);
  mret (Distribution_kl_divergence d distr_params1 distr_params2).
Definition regularization_loss (d : Distribution) : M (option Tensor) :=
  _ ← log (CallRegularizationLoss d);
  mret (Distribution_regularization_loss d).

End monad.

(** ** The methods of [DistributionModel] *)

(** [sorted(names)]: the names in ascending order of [str] comparison, which
    is lexicographic on the characters' codes. *)
Definition sorted (names : list string) : list string :=
  merge_sort String.le names.

Section DistributionModel.
Context `{F : Framework} `{S : !MemoryModel}.

Definition __init__ (args : base_args) (network : value)
    (distributions : option (dict value))
    (entropy_regularization : option float)
    (requires_deterministic : bool) : M unit :=
  _ ← modify_self (set_network_spec network);
  _ ← modify_self (set_distributions_spec distributions);
  _ ← assert_ 60 (match entropy_regularization with
                  | None => true
                  | Some x => PrimFloat.leb 0 x
                  end);
  _ ← modify_self (set_entropy_regularization entropy_regularization);
  _ ← modify_self (set_requires_deterministic requires_deterministic);
  _ ← modify_self (set_network None);
  _ ← modify_self (set_distributions None);
  _ ← modify_self (set_fn_kl_divergence None);
  super_do (super_init args).

(** The [elif] chain of [create_distributions], taken when the name has no
    entry in [distributions_spec]. *)
Definition default_distribution (m : Model) (name : string)
    (action : dict value) (distributions : dict Distribution)
    : M (dict Distribution) :=
  type ← lift (PyDict.getitem "type" action);
  if value_eq_str type "bool" then
    shape ← lift (PyDict.getitem "shape" action);
    mret (PyDict.set name (Bernoulli shape (summary_labels m)) distributions)
  else if value_eq_str type "int" then
    shape ← lift (PyDict.getitem "shape" action);
    num_actions ← lift (PyDict.getitem "num_actions" action);
    mret (PyDict.set name
            (Categorical shape num_actions (summary_labels m)) distributions)
  else if value_eq_str type "float" then
    if PyDict.mem "min_value" action then
      shape ← lift (PyDict.getitem "shape" action);
      min_value ← lift (PyDict.getitem "min_value" action);
      max_value ← lift (PyDict.getitem "max_value" action);
      mret (PyDict.set name
              (Beta shape min_value max_value (summary_labels m)) distributions)
    else
      shape ← lift (PyDict.getitem "shape" action);
      mret (PyDict.set name (Gaussian shape (summary_labels m)) distributions)
  else
    mret distributions.

Definition create_distributions_body (m : Model)
    (distributions : dict Distribution) (item : string * dict value)
    : M (dict Distribution) :=
  let '(name, action) := item in
  match distributions_spec m with
  | Some dspec =>
      if PyDict.mem name dspec then
        let kwargs := PyDict.set "summary_labels" (VSet (summary_labels m)) action in
        spec ← lift (PyDict.getitem name dspec);
        mret (PyDict.set name (Distribution_from_spec spec kwargs) distributions)
      else default_distribution m name action distributions
  | None => default_distribution m name action distributions
  end.

Definition create_distributions : M (dict Distribution) :=
  m ← get_self;
  for_each (PyDict.items (actions_spec m)) (create_distributions_body m) [].

Definition initialize (custom_getter : Obj) : M unit :=
  m ← get_self;
  _ ← modify_self (set_network (Some (Network_from_spec (network_spec m)
         [("summary_labels", VSet (summary_labels m))])));
  m ← get_self;
  _ ← assert_ 97 (bool_decide (PyDict.len (internals_spec m) = 0%nat));
  net ← the_network "internals_spec";
  _ ← modify_self (set_internals_spec (Network_internals_spec net));
  _ ← super_do (super_initialize custom_getter);
  ds ← create_distributions;
  _ ← modify_self (set_distributions (Some ds));
  modify_self (set_fn_kl_divergence
    (Some (make_template "kl-divergence" "tf_kl_divergence" custom_getter))).

Definition name_prefix (n : nat) (name : string) : string :=
  if bool_decide (1 < n)%nat then name +:+ "_" else "".

Definition tf_actions_and_internals_body (embedding : Tensor)
    (deterministic : bool) (actions : dict Tensor)
    (item : string * Distribution) : M (dict Tensor) :=
  let '(name, distribution) := item in
  distr_params ← parameterize distribution embedding;
  m ← get_self;
  action ← sample distribution distr_params
             (deterministic || requires_deterministic m);
  let actions := PyDict.set name action actions in
  ds ← the_distributions (AttributeError "items");
  let name_prefix := name_prefix (length (PyDict.items ds)) name in
  t0 ← index distr_params 0;
  _ ← network_set_named_tensor (name_prefix +:+ "logits") t0;
  t1 ← index distr_params 1;
  _ ← network_set_named_tensor (name_prefix +:+ "probabilities") t1;
  t2 ← index distr_params 2;
  _ ← network_set_named_tensor (name_prefix +:+ "state_value") t2;
  mret actions.

Definition tf_actions_and_internals (states internals : Obj)
    (deterministic : bool) : M (dict Tensor * Obj) :=
  net ← the_network "apply";
  '(embedding, internals) ← network_apply net states internals false true;
  ds ← the_distributions (AttributeError "items");
  actions ← for_each (PyDict.items ds)
              (tf_actions_and_internals_body embedding deterministic) [];
  mret (actions, internals).

(** [tf.reshape(tensor=t, shape=(-1, util.prod(util.shape(t)[1:])))] *)
Definition collapse (t : Tensor) : Tensor :=
  let collapsed_size := util_prod (drop 1 (util_shape t)) in
  tf_reshape t [(-1)%Z; collapsed_size].

(** One round of [for distribution in self.distributions.values()]. *)
Definition distribution_loss_body (losses : dict Tensor)
    (distribution : Distribution) : M (dict Tensor) :=
  regularization_loss ← regularization_loss distribution;
  mret match regularization_loss with
       | Some l =>
           match PyDict.get "distributions" losses with
           | Some l0 => PyDict.set "distributions" (tf_add l0 l) losses
           | None => PyDict.set "distributions" l losses
           end
       | None => losses
       end.

(** One round of the loop that collects the entropies. *)
Definition entropy_body (embedding : Tensor) (entropies : list Tensor)
    (item : string * Distribution) : M (list Tensor) :=
  let '(name, distribution) := item in
  distr_params ← parameterize distribution embedding;
  entropy ← entropy distribution distr_params;
  mret (entropies ++ [collapse entropy]).

Definition tf_regularization_losses (states internals : Obj) (update : bool)
    : M (dict Tensor) :=
  losses ← super_get (super_tf_regularization_losses states internals update);
  net ← the_network "regularization_loss";
  network_loss ← network_regularization_loss net;
  let losses := match network_loss with
                | Some l => PyDict.set "network" l losses
                | None => losses
                end in
  ds ← the_distributions (AttributeError "values");
  losses ← for_each (PyDict.values ds) distribution_loss_body losses;
  m ← get_self;
  match entropy_regularization m with
  | Some er =>
      if PrimFloat.ltb 0 er then
        net ← the_network "apply";
        '(embedding, _) ← network_apply net states internals update false;
        ds ← the_distributions (AttributeError "items");
        entropies ← for_each (PyDict.items ds) (entropy_body embedding) [];
        let entropy_per_instance := tf_reduce_mean (tf_concat entropies 1) 1 in
        let entropy := tf_reduce_mean entropy_per_instance 0 in
        m ← get_self;
        _ ← (if bool_decide ("entropy" ∈ summary_labels m) then
               modify_self (λ m, set_summaries
                 (summaries m ++ [tf_summary_scalar "entropy" entropy]) m)
             else mret ());
        mret (PyDict.set "entropy" (tf_scale (PrimFloat.opp er) entropy) losses)
      else mret losses
  | None => mret losses
  end.

(** One round of the loop of [tf_kl_divergence]. *)
Definition tf_kl_divergence_body (embedding : Tensor)
    (kl_divergences : list Tensor) (item : string * Distribution)
    : M (list Tensor) :=
  let '(name, distribution) := item in
  distr_params ← parameterize distribution embedding;
  let fixed_distr_params := tf_stop_gradient <$> distr_params in
  kl_divergence ← kl_divergence distribution fixed_distr_params distr_params;
  mret (kl_divergences ++ [collapse kl_divergence]).

Definition tf_kl_divergence
    (states internals actions terminal reward next_states next_internals : Obj)
    (update : bool) (reference : option Obj) : M Tensor :=
  net ← the_network "apply";
  '(embedding, _) ← network_apply net states internals update false;
  ds ← the_distributions (AttributeError "items");
  kl_divergences ← for_each (PyDict.items ds) (tf_kl_divergence_body embedding) [];
  let kl_divergence_per_instance :=
    tf_reduce_mean (tf_concat kl_divergences 1) 1 in
  mret (tf_reduce_mean kl_divergence_per_instance 0).

Definition optimizer_arguments (b : batch) : M (dict argument) :=
  arguments ← super_get (super_optimizer_arguments b);
  m ← get_self;
  mret (PyDict.set "fn_kl_divergence" (ArgTemplate (fn_kl_divergence m)) arguments).

(** [[x for name in sorted(self.distributions)
        for x in f(self.distributions[name])]] *)
Definition per_distribution {A} (f : Distribution → list A) : M (list A) :=
  ds ← the_distributions (TypeError "iter");
  for_each (sorted (PyDict.keys ds)) (λ acc name,
    ds ← the_distributions (TypeError "getitem");
    d ← lift (PyDict.getitem name ds);
    mret (acc ++ f d)) [].

Definition get_variables (include_submodules include_nontrainable : bool)
    : M (list TfVariable) :=
  model_variables ←
    super_get (super_get_variables include_submodules include_nontrainable);
  net ← the_network "get_variables";
  let network_variables := Network_get_variables net include_nontrainable in
  let model_variables := model_variables ++ network_variables in
  distribution_variables ←
    per_distribution (λ d, Distribution_get_variables d include_nontrainable);
  let model_variables := model_variables ++ distribution_variables in
  mret model_variables.

Definition get_summaries : M (list TfSummary) :=
  model_summaries ← super_get super_get_summaries;
  net ← the_network "get_summaries";
  let network_summaries := Network_get_summaries net in
  distribution_summaries ← per_distribution Distribution_get_summaries;
  mret (model_summaries ++ network_summaries ++ distribution_summaries).

End DistributionModel.

(** ** A small instance of the interfaces, on which the statements below
       are exercised *)

Module Example.

Local Open Scope Z_scope.

Definition framework : Framework := {|
  Tensor := Z;
  Obj := Z;
  Network := Z;
  TfVariable := string;
  TfSummary := string;
  tf_stop_gradient t := t;
  tf_reshape t shape := t;
  tf_concat ts axis := foldr Z.add 0%Z ts;
  tf_reduce_mean t axis := t;
  tf_add := Z.add;
  tf_scale c t := if PrimFloat.ltb c 0 then (- t)%Z else t;
  tf_summary_scalar name t := name;
  util_shape t := [1; 1]%Z;
  util_prod := foldr Z.mul 1%Z;
  Network_from_spec spec kwargs := 7%Z;
  Network_internals_spec net := [("lstm", VTuple [VInt 2; VInt 64])];
  Network_apply net x internals update := ((x + net)%Z, internals);
  Network_regularization_loss net := Some 3%Z;
  Network_get_variables net include_nontrainable := ["dense0/W"; "dense0/b"];
  Network_get_summaries net := ["dense0/activations"];
  Distribution_parameterize d x := [x; (x + 1)%Z; (x + 2)%Z];
  Distribution_sample d distr_params deterministic :=
    if deterministic then default 0%Z (head distr_params) else 0%Z;
  Distribution_entropy d distr_params := 1%Z;
  Distribution_kl_divergence d distr_params1 distr_params2 := 0%Z;
  Distribution_regularization_loss d := None;
  Distribution_get_variables d include_nontrainable :=
    match d with
    | Bernoulli _ _ => ["bernoulli/logit"]
    | Categorical _ _ _ => ["categorical/logits"]
    | Beta _ _ _ _ => ["beta/alpha"; "beta/beta"]
    | Gaussian _ _ => ["gaussian/mean"; "gaussian/log_stddev"]
    | Distribution_from_spec _ _ => []
    end;
  Distribution_get_summaries d := [];
|}.

#[local] Existing Instance framework.

Definition super_arguments : dict (@argument framework) :=
  [("time", ArgObj 0)].

Definition template : @Template framework :=
  make_template "kl-divergence" "tf_kl_divergence" 0.

Definition memory_model : @MemoryModel framework := {|
  super_init args m := inr m;
  super_initialize custom_getter m := inr m;
  super_tf_regularization_losses states internals update m := inr [];
  super_optimizer_arguments b m := inr super_arguments;
  super_get_variables include_submodules include_nontrainable m :=
    inr ["global-timestep"];
  super_get_summaries m := inr [];
|}.

#[local] Existing Instance memory_model.

Definition labels : gset string := {["entropy"]}.

(** Two actions, inserted as [turn], [brake]. *)
Definition actions : dict (dict value) :=
  [("turn", [("type", VStr "float"); ("shape", VTuple [])]);
   ("brake", [("type", VStr "bool"); ("shape", VTuple [])])].

(** A model as the constructor leaves it. *)
Definition fresh : @Model framework := {|
  network_spec := VTuple [];
  distributions_spec := None;
  entropy_regularization := Some 0.25%float;
  requires_deterministic := false;
  network := None;
  distributions := None;
  fn_kl_divergence := None;
  actions_spec := actions;
  summary_labels := labels;
  internals_spec := [];
  summaries := [];
  inherited := [];
|}.

(** The distributions of these actions. *)
Definition dists : dict Distribution :=
  [("turn", Gaussian (VTuple []) labels);
   ("brake", Bernoulli (VTuple []) labels)].

(** The same model after [initialize]. *)
Definition model : @Model framework :=
  set_fn_kl_divergence
    (Some template)
    (set_distributions
       (Some dists)
       (set_internals_spec [("lstm", VTuple [VInt 2; VInt 64])]
          (set_network (Some 7%Z) fresh))).

(** The same with [requires_deterministic] set, as a Q-model sets it. *)
Definition q_model : @Model framework := set_requires_deterministic true model.

Definition args : @base_args framework :=
  Build_base_args framework 0 0 0 0 0 0 0 0 0 0 0 0 0 0 0 0.

Definition a_batch : @batch framework := Build_batch framework 0 0 0 0 0 0 0.

Definition start (m : @Model framework) : @world framework :=
  {| self := m; calls := [] |}.

End Example.

(** ** Further instances: odd actions, a short parameter tuple *)

Module Example2.

Local Open Scope Z_scope.
#[local] Existing Instance Example.framework.

(** Three actions, the second of a type that has no distribution. *)
Definition mixed_actions : dict (dict value) :=
  [("turn", [("type", VStr "float"); ("shape", VTuple [])]);
   ("note", [("type", VStr "text")]);
   ("brake", [("type", VStr "bool"); ("shape", VTuple [])])].

Definition mixed : @Model Example.framework := {|
  network_spec := VTuple [];
  distributions_spec := None;
  entropy_regularization := None;
  requires_deterministic := false;
  network := None;
  distributions := None;
  fn_kl_divergence := None;
  actions_spec := mixed_actions;
  summary_labels := Example.labels;
  internals_spec := [];
  summaries := [];
  inherited := [];
|}.

(** A bounded action whose upper bound was forgotten. *)
Definition gas : dict value :=
  [("type", VStr "float"); ("shape", VTuple []); ("min_value", VFloat 0)].

Definition unbounded : @Model Example.framework := {|
  network_spec := VTuple [];
  distributions_spec := None;
  entropy_regularization := None;
  requires_deterministic := false;
  network := None;
  distributions := None;
  fn_kl_divergence := None;
  actions_spec :=
    [("turn", [("type", VStr "float"); ("shape", VTuple [])]); ("gas", gas);
     ("brake", [("type", VStr "bool"); ("shape", VTuple [])])];
  summary_labels := Example.labels;
  internals_spec := [];
  summaries := [];
  inherited := [];
|}.

(** The framework of [Example], except that a Bernoulli distribution yields
    two parameter tensors only. *)
Definition short_framework : Framework := {|
  Tensor := Z;
  Obj := Z;
  Network := Z;
  TfVariable := string;
  TfSummary := string;
  tf_stop_gradient := @tf_stop_gradient Example.framework;
  tf_reshape := @tf_reshape Example.framework;
  tf_concat := @tf_concat Example.framework;
  tf_reduce_mean := @tf_reduce_mean Example.framework;
  tf_add := @tf_add Example.framework;
  tf_scale := @tf_scale Example.framework;
  tf_summary_scalar := @tf_summary_scalar Example.framework;
  util_shape := @util_shape Example.framework;
  util_prod := @util_prod Example.framework;
  Network_from_spec := @Network_from_spec Example.framework;
  Network_internals_spec := @Network_internals_spec Example.framework;
  Network_apply := @Network_apply Example.framework;
  Network_regularization_loss := @Network_regularization_loss Example.framework;
  Network_get_variables := @Network_get_variables Example.framework;
  Network_get_summaries := @Network_get_summaries Example.framework;
  Distribution_parameterize d x :=
    match d with
    | Bernoulli _ _ => [x; x + 1]
    | _ => [x; x + 1; x + 2]
    end;
  Distribution_sample := @Distribution_sample Example.framework;
  Distribution_entropy := @Distribution_entropy Example.framework;
  Distribution_kl_divergence := @Distribution_kl_divergence Example.framework;
  Distribution_regularization_loss :=
    @Distribution_regularization_loss Example.framework;
  Distribution_get_variables := @Distribution_get_variables Example.framework;
  Distribution_get_summaries := @Distribution_get_summaries Example.framework;
|}.

(** An initialized model over it: [turn] is a Gaussian, [brake] a
    Bernoulli. *)
Definition short_model : @Model short_framework :=
  @Build_Model short_framework (VTuple []) None None false (Some 7)
    (Some Example.dists) None Example.actions Example.labels [] [] [].

End Example2.

(** ** The vocabulary of the statements

    What the statements below say about a run: the object the constructor
    builds, the distribution expected for an action, the calls of one round of
    a loop, and what a log says about each kind of call. *)

(** A NaN. *)
Definition nan : float := (0 / 0)%float.

Section vocabulary.
Context `{F : Framework} `{S : !MemoryModel}.

(** What the constructor leaves in the object before the superclass
    constructor runs. *)
Definition constructed (network : value) (distributions : option (dict value))
    (entropy_regularization : option float) (requires_deterministic : bool)
    (m : Model) : Model :=
  set_fn_kl_divergence None (set_distributions None (set_network None
    (set_requires_deterministic requires_deterministic
      (set_entropy_regularization entropy_regularization
        (set_distributions_spec distributions (set_network_spec network m)))))).

(** [entropy_regularization is None or entropy_regularization >= 0.0] *)
Definition accepted (entropy_regularization : option float) : bool :=
  match entropy_regularization with
  | None => true
  | Some x => PrimFloat.leb 0 x
  end.

(** The distribution chosen for one action, in the words of the
    specification: the entry of [distributions_spec] when there is one,
    otherwise by the action's type, and nothing for any other type. *)
Definition expected_distribution (m : Model) (name : string)
    (action : dict value) : option Distribution :=
  match distributions_spec m ≫= PyDict.get name with
  | Some spec =>
      Some (Distribution_from_spec spec
              (PyDict.set "summary_labels" (VSet (summary_labels m)) action))
  | None =>
      type ← PyDict.get "type" action;
      shape ← PyDict.get "shape" action;
      if value_eq_str type "bool" then
        Some (Bernoulli shape (summary_labels m))
      else if value_eq_str type "int" then
        num_actions ← PyDict.get "num_actions" action;
        Some (Categorical shape num_actions (summary_labels m))
      else if value_eq_str type "float" then
        match PyDict.get "min_value" action with
        | Some min_value =>
            max_value ← PyDict.get "max_value" action;
            Some (Beta shape min_value max_value (summary_labels m))
        | None => Some (Gaussian shape (summary_labels m))
        end
      else None
  end.

(** The action's type is one of ['bool'], ['int'], ['float']. *)
Definition typed (action : dict value) : Prop :=
  ∃ type, PyDict.get "type" action = Some type ∧
    (value_eq_str type "bool" || value_eq_str type "int"
     || value_eq_str type "float") = true.

(** The action has the entries its type calls for: a type; a shape when the
    type is one of the three; [num_actions] for ['int']; [max_value] beside
    [min_value] for ['float']. *)
Definition complete (action : dict value) : Prop :=
  ∃ type, PyDict.get "type" action = Some type ∧
    ((value_eq_str type "bool" || value_eq_str type "int"
      || value_eq_str type "float") = true →
     is_Some (PyDict.get "shape" action)) ∧
    (value_eq_str type "int" = true →
     is_Some (PyDict.get "num_actions" action)) ∧
    (value_eq_str type "float" = true →
     is_Some (PyDict.get "min_value" action) →
     is_Some (PyDict.get "max_value" action)).

(** [name] has an entry in [distributions_spec]. *)
Definition overridden (m : Model) (name : string) : Prop :=
  is_Some (distributions_spec m ≫= PyDict.get name).

(** [create_distributions] assigns nothing, issues no call, and raises
    nothing but [KeyError]. *)
Definition reads_only {A} (c : M A) : Prop :=
  ∀ w, match c w with
       | Ok (_, w') => w' = w
       | Err e => ∃ key, e = KeyError key
       end.

(** The network that [initialize] creates. *)
Definition created_network (m : Model) : Network :=
  Network_from_spec (network_spec m)
    [("summary_labels", VSet (summary_labels m))].

(** The names under which the three tensors of one distribution are
    registered, [n] being the number of distributions. *)
Definition tensor_names (n : nat) (name : string) : list string :=
  [name_prefix n name +:+ "logits";
   name_prefix n name +:+ "probabilities";
   name_prefix n name +:+ "state_value"].

(** The calls of one round of the loop of [tf_actions_and_internals]. *)
Definition calls_of_action (n : nat) (embedding : Tensor) (flag : bool)
    (item : string * Distribution) : list call :=
  let distr_params := Distribution_parameterize item.2 embedding in
  [CallParameterize item.2 embedding; CallSample item.2 distr_params flag]
  ++ zip_with CallSetNamedTensor (tensor_names n item.1) distr_params.

(** The action sampled in one round. *)
Definition sampled (embedding : Tensor) (flag : bool)
    (actions : dict Tensor) (item : string * Distribution) : dict Tensor :=
  PyDict.set item.1
    (Distribution_sample item.2 (Distribution_parameterize item.2 embedding) flag)
    actions.

(** Every distribution of [l] yields at least three parameter tensors. *)
Definition three_params (embedding : Tensor) (l : dict Distribution) : Prop :=
  ∀ name d, (name, d) ∈ l → (3 ≤ length (Distribution_parameterize d embedding))%nat.

(** What a log says about each kind of call. *)
Definition applications (cs : list call) : list (Obj * Obj * bool * bool) :=
  omap (λ c, match c with
             | CallApply x i u r => Some (x, i, u, r)
             | _ => None
             end) cs.
Definition parameterizations (cs : list call) : list (Distribution * Tensor) :=
  omap (λ c, match c with
             | CallParameterize d x => Some (d, x)
             | _ => None
             end) cs.
Definition samples (cs : list call) : list (Distribution * list Tensor * bool) :=
  omap (λ c, match c with
             | CallSample d p flag => Some (d, p, flag)
             | _ => None
             end) cs.
Definition named_tensors (cs : list call) : list (string * Tensor) :=
  omap (λ c, match c with
             | CallSetNamedTensor name t => Some (name, t)
             | _ => None
             end) cs.
Definition kl_divergences (cs : list call)
    : list (Distribution * list Tensor * list Tensor) :=
  omap (λ c, match c with
             | CallKlDivergence d p1 p2 => Some (d, p1, p2)
             | _ => None
             end) cs.

(** The divergence of one distribution from its own gradient-stopped
    parameters. *)
Definition kl_of (embedding : Tensor) (d : Distribution) : Tensor :=
  Distribution_kl_divergence d
    (tf_stop_gradient <$> Distribution_parameterize d embedding)
    (Distribution_parameterize d embedding).

Definition calls_of_kl (embedding : Tensor) (item : string * Distribution)
    : list call :=
  [CallParameterize item.2 embedding;
   CallKlDivergence item.2
     (tf_stop_gradient <$> Distribution_parameterize item.2 embedding)
     (Distribution_parameterize item.2 embedding)].

(** The losses once the network's loss is entered. *)
Definition with_network_loss (net : Network) (losses : dict Tensor)
    : dict Tensor :=
  match Network_regularization_loss net with
  | Some l => PyDict.set "network" l losses
  | None => losses
  end.

(** The losses once one distribution's loss is added. *)
Definition with_distribution_loss (losses : dict Tensor) (d : Distribution)
    : dict Tensor :=
  match Distribution_regularization_loss d with
  | Some l =>
      match PyDict.get "distributions" losses with
      | Some l0 => PyDict.set "distributions" (tf_add l0 l) losses
      | None => PyDict.set "distributions" l losses
      end
  | None => losses
  end.

(** The entropy of one distribution, reshaped to [(-1, collapsed)]. *)
Definition entropy_of (embedding : Tensor) (d : Distribution) : Tensor :=
  let entropy :=
    Distribution_entropy d (Distribution_parameterize d embedding) in
  tf_reshape entropy [(-1)%Z; util_prod (drop 1 (util_shape entropy))].

(** The batch mean of the per-instance mean of the concatenated
    entropies. *)
Definition mean_entropy (embedding : Tensor) (ds : dict Distribution)
    : Tensor :=
  tf_reduce_mean
    (tf_reduce_mean
       (tf_concat ((λ item, entropy_of embedding item.2) <$> PyDict.items ds) 1)
       1) 0.

Definition calls_of_entropy (embedding : Tensor)
    (item : string * Distribution) : list call :=
  [CallParameterize item.2 embedding;
   CallEntropy item.2 (Distribution_parameterize item.2 embedding)].

(** The losses before the entropy term. *)
Definition losses_before_entropy (net : Network) (ds : dict Distribution)
    (losses0 : dict Tensor) : dict Tensor :=
  foldl with_distribution_loss (with_network_loss net losses0)
    (PyDict.values ds).

(** The value a run returns, if it returns. *)
Definition returned {A} (r : result (A * world)) : option A :=
  match r with
  | Ok (a, _) => Some a
  | Err _ => None
  end.

(** What the distribution stored under [name] contributes. *)
Definition entries_of {A} (f : Distribution → list A) (ds : dict Distribution)
    (name : string) : list A :=
  match PyDict.get name ds with
  | Some d => f d
  | None => []
  end.

(** The entries of all distributions, by ascending name. *)
Definition distribution_entries {A} (f : Distribution → list A)
    (ds : dict Distribution) : list A :=
  sorted (PyDict.keys ds) ≫= entries_of f ds.

(** The names that get a distribution, in the order of the actions. *)
Definition distributed_names (m : Model) (actions : dict (dict value))
    : list string :=
  omap (λ item, match expected_distribution m item.1 item.2 with
                | Some _ => Some item.1
                | None => None
                end) actions.

(** [k] when the action lacks it, otherwise [rest]. *)
Definition or_missing (action : dict value) (k : string)
    (rest : option string) : option string :=
  if PyDict.mem k action then rest else Some k.

(** The first entry that [create_distributions] reads from an action without
    an entry in [distributions_spec] and does not find. *)
Definition first_missing_key (action : dict value) : option string :=
  match PyDict.get "type" action with
  | None => Some "type"
  | Some type =>
      if value_eq_str type "bool" then or_missing action "shape" None
      else if value_eq_str type "int" then
        or_missing action "shape" (or_missing action "num_actions" None)
      else if value_eq_str type "float" then
        if PyDict.mem "min_value" action then
          or_missing action "shape" (or_missing action "max_value" None)
        else or_missing action "shape" None
      else None
  end.

(** The sum, in order, of the regularization losses of the distributions
    that have one, on top of [start]. *)
Definition summed_loss (start : option Tensor) (ds : list Distribution)
    : option Tensor :=
  foldl (λ acc d,
           match Distribution_regularization_loss d with
           | Some l => Some match acc with
                            | Some l0 => tf_add l0 l
                            | None => l
                            end
           | None => acc
           end) start ds.

(** Whether the entropy term is entered:
    [entropy_regularization is not None and entropy_regularization > 0.0]. *)
Definition regularizes (er : option float) : bool :=
  match er with
  | Some x => PrimFloat.ltb 0 x
  | None => false
  end.

(** The summary that [tf_regularization_losses] appends: one when the
    entropy term is entered and ['entropy'] is a summary label. *)
Definition entropy_summary (m : Model) (embedding : Tensor)
    (ds : dict Distribution) : list TfSummary :=
  if regularizes (entropy_regularization m)
     && bool_decide ("entropy" ∈ summary_labels m)
  then [tf_summary_scalar "entropy" (mean_entropy embedding ds)]
  else [].

End vocabulary.

(** ** Facts about dictionaries *)

Section dict_facts.
Import PyDict.
Context {V : Type}.
Implicit Types (d : dict V) (k : string) (v : V).

Lemma dict_get_None k d : get k d = None ↔ k ∉ keys d.
Proof.
  induction d as [|[k' v'] d IH]; simpl.
  - split; [intros _; apply not_elem_of_nil | done].
  - rewrite not_elem_of_cons. destruct (decide (k' = k)) as [->|Hne].
    + split; [done | intros [? _]; done].
    + rewrite IH. split; [by intros ?; split; [congruence|] | by intros [_ ?]].
Qed.

Lemma dict_get_Some_elem_of k v d : get k d = Some v → (k, v) ∈ d.
Proof.
  induction d as [|[k' v'] d IH]; simpl; [done|].
  case_decide; subst.
  - intros [= ->]. left.
  - intros ?. right. auto.
Qed.

Lemma dict_elem_of_get k v d : wf d → (k, v) ∈ d → get k d = Some v.
Proof.
  unfold wf, keys. induction d as [|[k' v'] d IH]; simpl.
  - intros _ ?%elem_of_nil. done.
  - rewrite NoDup_cons. intros [Hk Hd] [Heq|Hin]%elem_of_cons.
    + simplify_eq. by rewrite decide_True.
    + rewrite decide_False; [by apply IH|].
      intros ->. apply Hk. apply list_elem_of_fmap. by exists (k, v).
Qed.

Lemma dict_mem_true k d : mem k d = true ↔ k ∈ keys d.
Proof.
  unfold mem. rewrite bool_decide_eq_true.
  destruct (get k d) eqn:E.
  - split; [intros _ | by eauto].
    apply dict_get_Some_elem_of in E. apply list_elem_of_fmap. by exists (k, v).
  - split; [by intros [? ?] | intros Hin]. by apply dict_get_None in E.
Qed.

Lemma dict_get_set_eq k v d : get k (set k v d) = Some v.
Proof.
  induction d as [|[k' v'] d IH]; simpl.
  - by rewrite decide_True.
  - case_decide; simpl; [by rewrite decide_True | by rewrite decide_False].
Qed.

Lemma dict_get_set_ne k k' v d : k ≠ k' → get k' (set k v d) = get k' d.
Proof.
  intros Hne. induction d as [|[k1 v1] d IH]; simpl.
  - by rewrite decide_False.
  - case_decide; subst; simpl.
    + by rewrite !decide_False.
    + case_decide; done.
Qed.

Lemma dict_set_fresh k v d : get k d = None → set k v d = d ++ [(k, v)].
Proof.
  induction d as [|[k' v'] d IH]; simpl; [done|].
  case_decide; [done|]. intros ?. f_equal. auto.
Qed.

Lemma dict_keys_set k v d :
  keys (set k v d) = if mem k d then keys d else keys d ++ [k].
Proof.
  unfold mem, keys. induction d as [|[k' v'] d IH]; [done|].
  cbn [set get]. destruct (decide (k' = k)) as [->|Hne].
  - rewrite bool_decide_eq_true_2; [done | by eexists].
  - cbn [fmap list_fmap]. rewrite IH. by destruct (bool_decide _).
Qed.

Lemma dict_wf_set k v d : wf d → wf (set k v d).
Proof.
  unfold wf. rewrite dict_keys_set. destruct (mem k d) eqn:E; [done|].
  intros Hd. apply NoDup_app. split_and!; [done | | apply NoDup_singleton].
  intros x Hx ->%list_elem_of_singleton.
  apply dict_mem_true in Hx. congruence.
Qed.

End dict_facts.

(** ** Comparisons of binary64 values with zero *)

Lemma Prim2SF_zero : Prim2SF 0 = S754_zero false.
Proof. reflexivity. Qed.

Lemma float_lt0_not_ge0 (x : float) :
  PrimFloat.ltb x 0 = true → PrimFloat.leb 0 x = false.
Proof.
  rewrite ltb_spec, leb_spec, Prim2SF_zero.
  unfold SFltb, SFleb. by destruct (Prim2SF x) as [[]|[]| |[] ? ?].
Qed.

Lemma float_eq0_not_gt0 (x : float) :
  PrimFloat.eqb x 0 = true → PrimFloat.ltb 0 x = false.
Proof.
  rewrite FloatAxioms.eqb_spec, ltb_spec, Prim2SF_zero.
  unfold SFeqb, SFltb. by destruct (Prim2SF x) as [[]|[]| |[] ? ?].
Qed.

Lemma float_ge0_cases (x : float) :
  PrimFloat.leb 0 x = false →
  PrimFloat.ltb x 0 = true ∨ PrimFloat.eqb x x = false.
Proof.
  rewrite ltb_spec, leb_spec, FloatAxioms.eqb_spec, Prim2SF_zero.
  unfold SFeqb, SFltb, SFleb.
  destruct (Prim2SF x) as [[]|[]| |[] ? ?]; simpl; auto; discriminate.
Qed.

Lemma float_not_ge0_iff (x : float) :
  PrimFloat.leb 0 x = false ↔
  PrimFloat.ltb x 0 = true ∨ PrimFloat.eqb x x = false.
Proof.
  split; [apply float_ge0_cases|].
  intros [Hlt|Hnan]; [by apply float_lt0_not_ge0|].
  revert Hnan. rewrite leb_spec, FloatAxioms.eqb_spec, Prim2SF_zero.
  unfold SFeqb, SFleb.
  destruct (Prim2SF x) as [[]|[]| |[] m e]; simpl; try done.
  all: by rewrite Z.compare_refl, ?Pos.compare_cont_refl.
Qed.

(** * Properties *)

Section properties.
Context `{F : Framework} `{S : !MemoryModel}.


(** Unfolding of the monad's operations. *)
Ltac run :=
  repeat (unfold mbind, mret, M_bind, M_ret, modify_self, get_self, assert_,
          raise, log, lift, super_do, super_get, the_network,
          the_distributions, index; cbn -[PrimFloat.leb PrimFloat.ltb]).

Lemma init_run args n d er rd w :
  __init__ args n d er rd w =
    if accepted er then
      super_do (super_init args)
        {| self := constructed n d er rd (self w); calls := calls w |}
    else Err (AssertionError 60).
Proof.
  unfold __init__, accepted. run. destruct er as [x|]; [|done].
  by destruct (PrimFloat.leb 0 x).
Qed.

(** C5 (amended). The constructor fails the assertion of line 60 exactly
    when [entropy_regularization] is not [None] and
    [entropy_regularization >= 0.0] is false, which is the case for a value
    below zero and for a NaN; otherwise the superclass constructor runs on an
    object that holds the value as given, and (the superclass constructor
    leaving the attribute alone) the constructed model holds it unchanged. *)
Theorem init_entropy_regularization (args : base_args) (network : value)
    (distributions : option (dict value)) (er : option float)
    (requires_deterministic : bool) (w : world) :
  (__init__ args network distributions er requires_deterministic w
     = Err (AssertionError 60)
   ↔ ∃ x, er = Some x ∧ PrimFloat.leb 0 x = false) ∧
  (∀ x, er = Some x →
     (PrimFloat.leb 0 x = false
      ↔ PrimFloat.ltb x 0 = true ∨ PrimFloat.eqb x x = false)) ∧
  (accepted er = true →
   entropy_regularization
     (constructed network distributions er requires_deterministic (self w)) = er ∧
   __init__ args network distributions er requires_deterministic w =
     super_do (super_init args)
       {| self := constructed network distributions er requires_deterministic
                    (self w);
          calls := calls w |}) ∧
  (∀ w',
     (∀ m m', super_init args m = inr m' →
              entropy_regularization m' = entropy_regularization m) →
     __init__ args network distributions er requires_deterministic w
       = Ok ((), w') →
     accepted er = true ∧ entropy_regularization (self w') = er).
Proof.
  rewrite init_run. split_and!.
  - unfold accepted. destruct er as [x|].
    + destruct (PrimFloat.leb 0 x) eqn:E.
      * split; [|by intros (? & [= <-] & ?); congruence].
        unfold super_do; simpl. by destruct (super_init _ _).
      * split; [by eauto|done].
    + split; [|by intros (? & ? & ?)].
      unfold super_do; simpl. by destruct (super_init _ _).
  - intros x _. apply float_not_ge0_iff.
  - by intros ->.
  - intros w' Hframe. destruct (accepted er); [|done].
    unfold super_do; simpl.
    destruct (super_init _ _) as [what|m'] eqn:Hsuper; [done|].
    intros [= <-]. split; [done|]. simpl. by rewrite (Hframe _ _ Hsuper).
Qed.

(** *** create_distributions *)

Lemma create_distributions_body_run m acc name action w :
  overridden m name ∨ complete action →
  create_distributions_body m acc (name, action) w =
    Ok (match expected_distribution m name action with
        | Some d => PyDict.set name d acc
        | None => acc
        end, w).
Proof.
  unfold create_distributions_body, expected_distribution, overridden,
    PyDict.getitem, PyDict.mem.
  intros Hc.
  assert (complete action →
    default_distribution m name action acc w =
    Ok (match
          type ← PyDict.get "type" action;
          shape ← PyDict.get "shape" action;
          if value_eq_str type "bool" then
            Some (Bernoulli shape (summary_labels m))
          else if value_eq_str type "int" then
            num_actions ← PyDict.get "num_actions" action;
            Some (Categorical shape num_actions (summary_labels m))
          else if value_eq_str type "float" then
            match PyDict.get "min_value" action with
            | Some min_value =>
                max_value ← PyDict.get "max_value" action;
                Some (Beta shape min_value max_value (summary_labels m))
            | None => Some (Gaussian shape (summary_labels m))
            end
          else None
        with
        | Some d => PyDict.set name d acc
        | None => acc
        end, w)) as Hdefault.
  { intros (ty & Hty & Hshape & Hnum & Hmax).
    unfold default_distribution, PyDict.getitem, PyDict.mem. run.
    rewrite Hty. run.
    destruct (value_eq_str ty "bool") eqn:Eb; simpl in *.
    { destruct Hshape as [sh Hsh]; [done|]. by rewrite Hsh. }
    destruct (value_eq_str ty "int") eqn:Ei; simpl in *.
    { destruct Hshape as [sh Hsh]; [done|]. destruct Hnum as [nu Hnu]; [done|].
      by rewrite Hsh, Hnu. }
    destruct (value_eq_str ty "float") eqn:Ef; simpl in *.
    { destruct Hshape as [sh Hsh]; [done|]. rewrite Hsh. simpl.
      destruct (PyDict.get "min_value" action) as [lo|] eqn:Hlo; simpl; [|done].
      destruct Hmax as [hi Hhi]; [done|by eauto|]. by rewrite Hhi. }
    by destruct (PyDict.get "shape" action). }
  destruct (distributions_spec m) as [dspec|]; simpl in *.
  - destruct (PyDict.get name dspec) as [spec|] eqn:Hspec; simpl.
    + by run.
    + destruct Hc as [[? ?]|Hc]; [done|]. by apply Hdefault.
  - destruct Hc as [[? ?]|Hc]; [done|]. by apply Hdefault.
Qed.

Lemma expected_distribution_is_Some m name action :
  overridden m name ∨ complete action → typed action →
  is_Some (expected_distribution m name action).
Proof.
  unfold expected_distribution, overridden, typed.
  intros Hc (ty & Hty & Htyped).
  destruct (distributions_spec m ≫= PyDict.get name) as [spec|]; [by eauto|].
  destruct Hc as [[? ?]|(ty' & Hty' & Hshape & Hnum & Hmax)]; [done|].
  rewrite Hty in Hty'. injection Hty' as <-. rewrite Hty. simpl.
  destruct Hshape as [sh Hsh]; [done|]. rewrite Hsh. simpl.
  destruct (value_eq_str ty "bool"); [by eauto|].
  destruct (value_eq_str ty "int").
  { destruct Hnum as [nu Hnu]; [done|]. rewrite Hnu. by eauto. }
  destruct (value_eq_str ty "float"); [|done].
  destruct (PyDict.get "min_value" action) as [lo|]; [|by eauto].
  destruct Hmax as [hi Hhi]; [done|by eauto|]. rewrite Hhi. by eauto.
Qed.

Lemma create_distributions_loop m w l acc :
  NoDup l.*1 →
  (∀ name action, (name, action) ∈ l → overridden m name ∨ complete action) →
  ∃ ds, for_each l (create_distributions_body m) acc w = Ok (ds, w) ∧
    (PyDict.wf acc → PyDict.wf ds) ∧
    (∀ k, k ∉ l.*1 → PyDict.get k ds = PyDict.get k acc) ∧
    (∀ name action d, (name, action) ∈ l →
       expected_distribution m name action = Some d →
       PyDict.get name ds = Some d).
Proof.
  revert acc. induction l as [|[name action] l IH]; intros acc Hnd Hc.
  - exists acc. split_and!; [done..|]. by intros ??? ?%elem_of_nil.
  - apply NoDup_cons in Hnd as [Hname Hnd]. cbn [for_each].
    unfold mbind at 1, M_bind at 1.
    rewrite create_distributions_body_run by (apply Hc; left).
    set (acc' := match expected_distribution m name action with
                 | Some d => PyDict.set name d acc
                 | None => acc
                 end).
    destruct (IH acc' Hnd) as (ds & Hrun & Hwf & Hframe & Hsel).
    { intros ???. apply Hc. by right. }
    exists ds. split_and!; [done| | |].
    + intros Hacc. apply Hwf. unfold acc'.
      destruct (expected_distribution m name action); [|done].
      by apply dict_wf_set.
    + intros k [Hk1 Hk2]%not_elem_of_cons. rewrite Hframe by done.
      unfold acc'. destruct (expected_distribution m name action); [|done].
      by apply dict_get_set_ne.
    + intros name' action' d [[= -> ->]|Hin]%elem_of_cons Hexp.
      * rewrite Hframe by done. unfold acc'. rewrite Hexp.
        apply dict_get_set_eq.
      * by eapply Hsel.
Qed.

Lemma create_distributions_ok (w : world) :
  PyDict.wf (actions_spec (self w)) →
  (∀ name action, (name, action) ∈ PyDict.items (actions_spec (self w)) →
     overridden (self w) name ∨ complete action) →
  ∃ ds, create_distributions w = Ok (ds, w) ∧ PyDict.wf ds ∧
    ∀ name action d, (name, action) ∈ PyDict.items (actions_spec (self w)) →
      expected_distribution (self w) name action = Some d →
      PyDict.get name ds = Some d.
Proof.
  intros Hwf Hc.
  destruct (create_distributions_loop (self w) w (actions_spec (self w)) [])
    as (ds & Hrun & Hwfds & _ & Hsel); [done..|].
  exists ds. split_and!; [|by apply Hwfds, NoDup_nil_2|done].
  unfold create_distributions. by run.
Qed.

(** C2. When the actions have the entries their types call for,
    [create_distributions] returns a dictionary that holds, for every action
    of type ['bool'], ['int'] or ['float'], exactly one distribution under
    the action's name: the one built from the entry of [distributions_spec]
    when there is such an entry, otherwise Bernoulli, Categorical, Beta
    (with ['min_value']) or Gaussian (without) by the action's type. *)
Theorem create_distributions_chooses (w : world) :
  PyDict.wf (actions_spec (self w)) →
  (∀ name action, (name, action) ∈ PyDict.items (actions_spec (self w)) →
     overridden (self w) name ∨ complete action) →
  ∃ ds, create_distributions w = Ok (ds, w) ∧ PyDict.wf ds ∧
    ∀ name action, (name, action) ∈ PyDict.items (actions_spec (self w)) →
      typed action →
      ∃ d, expected_distribution (self w) name action = Some d ∧
           PyDict.get name ds = Some d ∧
           ∀ d', (name, d') ∈ PyDict.items ds → d' = d.
Proof.
  intros Hwf Hc.
  destruct (create_distributions_ok w) as (ds & Hrun & Hwfds & Hsel); [done..|].
  exists ds. split_and!; [done..|].
  intros name action Hin Hty.
  destruct (expected_distribution_is_Some (self w) name action) as [d Hd];
    [by apply Hc|done|].
  exists d. split_and!; [done|by eapply Hsel|].
  intros d' Hin'. apply (dict_elem_of_get name d' ds) in Hin'; [|done].
  erewrite Hsel in Hin' by done. by injection Hin'.
Qed.

Lemma create_distributions_body_reads_only m acc item :
  reads_only (create_distributions_body m acc item).
Proof.
  intros w. destruct item as [name action].
  unfold create_distributions_body, default_distribution, PyDict.getitem.
  run. repeat case_match; simplify_eq; eauto.
Qed.

Lemma create_distributions_reads_only : reads_only create_distributions.
Proof.
  intros w. unfold create_distributions. run.
  generalize (@nil (string * Distribution)) as acc.
  induction (PyDict.items (actions_spec (self w))) as [|item l IH];
    intros acc; cbn [for_each]; [by run|].
  unfold mbind at 1, M_bind at 1.
  pose proof (create_distributions_body_reads_only (self w) acc item w) as Hb.
  destruct (create_distributions_body (self w) acc item w) as [[acc' w']|e];
    [|done].
  subst w'. apply IH.
Qed.

(** *** initialize *)

Lemma initialize_run custom_getter w :
  initialize custom_getter w =
    if bool_decide (PyDict.len (internals_spec (self w)) = 0%nat) then
      match super_initialize custom_getter
              (set_internals_spec
                 (Network_internals_spec (created_network (self w)))
                 (set_network (Some (created_network (self w))) (self w))) with
      | inr m' =>
          match create_distributions {| self := m'; calls := calls w |} with
          | Ok (ds, w1) =>
              Ok ((), {| self :=
                           set_fn_kl_divergence
                             (Some (make_template "kl-divergence"
                                      "tf_kl_divergence" custom_getter))
                             (set_distributions (Some ds) (self w1));
                         calls := calls w1 |})
          | Err e => Err e
          end
      | inl what => Err (Raised what)
      end
    else Err (AssertionError 97).
Proof.
  unfold initialize, created_network, PyDict.len. run.
  destruct (bool_decide _); [|done]. run.
  destruct (super_initialize _ _) as [what|m']; [done|]. run.
  by destruct (create_distributions _) as [[ds w1]|e].
Qed.

(** C10. [initialize] fails the assertion of line 97 whenever
    [internals_spec] is not empty on entry; when it returns (the superclass
    leaving [internals_spec] as it finds it), [internals_spec] is what the
    newly created network's [internals_spec()] returned; and starting from an
    empty [internals_spec] the assertion does not fail, and [initialize]
    returns as soon as the superclass's [initialize] does and the actions
    have the entries their types call for. *)
Theorem initialize_internals_spec (custom_getter : Obj) (w : world) :
  (PyDict.len (internals_spec (self w)) ≠ 0%nat →
   initialize custom_getter w = Err (AssertionError 97)) ∧
  (∀ w',
     (∀ m m', super_initialize custom_getter m = inr m' →
              internals_spec m' = internals_spec m) →
     initialize custom_getter w = Ok ((), w') →
     internals_spec (self w') =
       Network_internals_spec (created_network (self w))) ∧
  (PyDict.len (internals_spec (self w)) = 0%nat →
   initialize custom_getter w ≠ Err (AssertionError 97) ∧
   ∀ m',
     super_initialize custom_getter
       (set_internals_spec (Network_internals_spec (created_network (self w)))
          (set_network (Some (created_network (self w))) (self w))) = inr m' →
     PyDict.wf (actions_spec m') →
     (∀ name action, (name, action) ∈ PyDict.items (actions_spec m') →
        overridden m' name ∨ complete action) →
     ∃ w', initialize custom_getter w = Ok ((), w')).
Proof.
  rewrite initialize_run. split_and!.
  - intros Hne. by rewrite bool_decide_eq_false_2.
  - intros w' Hframe. case_bool_decide; [|done].
    destruct (super_initialize _ _) as [what|m'] eqn:Hsuper; [done|].
    pose proof (create_distributions_reads_only
                  {| self := m'; calls := calls w |}) as Hro.
    destruct (create_distributions _) as [[ds w1]|e]; [|done].
    subst w1. intros [= <-]. simpl. by rewrite (Hframe _ _ Hsuper).
  - intros Hempty. rewrite bool_decide_eq_true_2 by done. split.
    + destruct (super_initialize _ _) as [what|m']; [done|].
      pose proof (create_distributions_reads_only
                    {| self := m'; calls := calls w |}) as Hro.
      destruct (create_distributions _) as [[ds w1]|e]; [done|].
      destruct Hro as [key ->]. done.
    + intros m' -> Hwf Hc.
      destruct (create_distributions_ok {| self := m'; calls := calls w |})
        as (ds & -> & _); [done..|].
      by eauto.
Qed.

(** *** tf_actions_and_internals *)

Lemma tf_actions_and_internals_body_run embedding det actions name d ds w :
  distributions (self w) = Some ds →
  (3 ≤ length (Distribution_parameterize d embedding))%nat →
  tf_actions_and_internals_body embedding det actions (name, d) w =
    Ok (sampled embedding (det || requires_deterministic (self w)) actions (name, d),
        {| self := self w;
           calls := calls w ++
             calls_of_action (length ds) embedding
               (det || requires_deterministic (self w)) (name, d) |}).
Proof.
  intros Hds Hlen.
  unfold tf_actions_and_internals_body, calls_of_action, sampled, parameterize,
    sample, network_set_named_tensor, tensor_names, PyDict.items.
  run. rewrite Hds. run.
  destruct (Distribution_parameterize d embedding) as [|t0 [|t1 [|t2 rest]]];
    simpl in Hlen; [lia..|].
  run. by rewrite <- !(assoc_L (++)).
Qed.

Lemma tf_actions_and_internals_loop embedding det ds l actions w :
  distributions (self w) = Some ds →
  three_params embedding l →
  for_each l (tf_actions_and_internals_body embedding det) actions w =
    Ok (foldl (sampled embedding (det || requires_deterministic (self w))) actions l,
        {| self := self w;
           calls := calls w ++
             (l ≫= calls_of_action (length ds) embedding
                     (det || requires_deterministic (self w))) |}).
Proof.
  intros Hds. revert actions w Hds.
  induction l as [|[name d] l IH]; intros actions w Hds Hl; cbn [for_each].
  - run. rewrite (right_id_L [] (++)). by destruct w.
  - unfold mbind at 1, M_bind at 1.
    erewrite tf_actions_and_internals_body_run; [|done|by eapply Hl; left].
    rewrite IH; [|done|by intros ???; eapply Hl; right].
    cbn [self calls foldl mbind list_bind]. by rewrite (assoc_L (++)).
Qed.

Lemma tf_actions_and_internals_run states internals det net ds w :
  network (self w) = Some net →
  distributions (self w) = Some ds →
  three_params (Network_apply net states internals false).1 ds →
  tf_actions_and_internals states internals det w =
    Ok ((foldl (sampled (Network_apply net states internals false).1
                  (det || requires_deterministic (self w))) [] ds,
         (Network_apply net states internals false).2),
        {| self := self w;
           calls := calls w ++
             CallApply states internals false true ::
             (ds ≫= calls_of_action (length ds)
                      (Network_apply net states internals false).1
                      (det || requires_deterministic (self w))) |}).
Proof.
  intros Hnet Hds Hthree.
  unfold tf_actions_and_internals, network_apply. run. rewrite Hnet. run.
  destruct (Network_apply net states internals false) as [embedding internals'].
  run. rewrite Hds. run. unfold PyDict.items.
  erewrite tf_actions_and_internals_loop; [|done..].
  run. by rewrite <- (assoc_L (++)).
Qed.

Lemma applications_of_actions n embedding flag l :
  applications (l ≫= calls_of_action n embedding flag) = [].
Proof.
  unfold applications. induction l as [|[name d] l IH]; [done|].
  rewrite bind_cons, omap_app, IH. unfold calls_of_action, tensor_names. simpl.
  by destruct (Distribution_parameterize d embedding) as [|? [|? [|? ?]]].
Qed.

Lemma parameterizations_of_actions n embedding flag l :
  parameterizations (l ≫= calls_of_action n embedding flag) =
    (λ item, (item.2, embedding)) <$> l.
Proof.
  unfold parameterizations. induction l as [|[name d] l IH]; [done|].
  rewrite bind_cons, omap_app, IH, fmap_cons.
  unfold calls_of_action, tensor_names. simpl.
  by destruct (Distribution_parameterize d embedding) as [|? [|? [|? ?]]].
Qed.

Lemma samples_of_actions n embedding flag l :
  samples (l ≫= calls_of_action n embedding flag) =
    (λ item, (item.2, Distribution_parameterize item.2 embedding, flag)) <$> l.
Proof.
  unfold samples. induction l as [|[name d] l IH]; [done|].
  rewrite bind_cons, omap_app, IH, fmap_cons.
  unfold calls_of_action, tensor_names. simpl.
  by destruct (Distribution_parameterize d embedding) as [|? [|? [|? ?]]].
Qed.

Lemma named_tensors_of_actions n embedding flag l :
  named_tensors (l ≫= calls_of_action n embedding flag) =
    l ≫= λ item, zip (tensor_names n item.1)
                     (Distribution_parameterize item.2 embedding).
Proof.
  unfold named_tensors. induction l as [|[name d] l IH]; [done|].
  rewrite !bind_cons, omap_app, IH. f_equal.
  unfold calls_of_action, tensor_names. simpl.
  by destruct (Distribution_parameterize d embedding) as [|? [|? [|? ?]]].
Qed.

Lemma name_prefix_iff (n : nat) (name : string) :
  name_prefix n name = name +:+ "_" ↔ (1 < n)%nat.
Proof.
  unfold name_prefix. case_bool_decide; [done|].
  split; [|done]. intros Heq. destruct name; discriminate Heq.
Qed.

(** C1. Every [sample] that [tf_actions_and_internals] issues, one per
    distribution, is given the flag [deterministic or requires_deterministic];
    when [requires_deterministic] holds the flag is true whatever
    [deterministic] is. *)
Theorem sample_deterministic_flag (states internals : Obj) (deterministic : bool)
    (net : Network) (ds : dict Distribution) (w : world) :
  network (self w) = Some net →
  distributions (self w) = Some ds →
  three_params (Network_apply net states internals false).1 ds →
  ∃ r new,
    tf_actions_and_internals states internals deterministic w =
      Ok (r, {| self := self w; calls := calls w ++ new |}) ∧
    samples new =
      (λ item, (item.2,
                Distribution_parameterize item.2
                  (Network_apply net states internals false).1,
                deterministic || requires_deterministic (self w))) <$> ds ∧
    (requires_deterministic (self w) = true →
     Forall (λ s, s.2 = true) (samples new)).
Proof.
  intros Hnet Hds Hthree. eexists _, _. split_and!.
  - by apply tf_actions_and_internals_run.
  - simpl. apply samples_of_actions.
  - intros Hreq. simpl. rewrite samples_of_actions.
    apply Forall_fmap, Forall_true. intros item. simpl.
    rewrite Hreq. apply orb_true_r.
Qed.

(** C6. [tf_actions_and_internals] applies the network exactly once, to the
    given states and internals; every distribution is parameterized from the
    embedding of that application, and the internals returned are those of
    that application. *)
Theorem network_applied_once (states internals : Obj) (deterministic : bool)
    (net : Network) (ds : dict Distribution) (w : world) :
  network (self w) = Some net →
  distributions (self w) = Some ds →
  three_params (Network_apply net states internals false).1 ds →
  ∃ actions new,
    tf_actions_and_internals states internals deterministic w =
      Ok ((actions, (Network_apply net states internals false).2),
          {| self := self w; calls := calls w ++ new |}) ∧
    applications new = [(states, internals, false, true)] ∧
    parameterizations new =
      (λ item, (item.2, (Network_apply net states internals false).1)) <$> ds.
Proof.
  intros Hnet Hds Hthree. eexists _, _. split_and!.
  - by apply tf_actions_and_internals_run.
  - unfold applications at 1. cbn [omap list_omap].
    fold (applications
            (ds ≫= calls_of_action (length ds)
                     (Network_apply net states internals false).1
                     (deterministic || requires_deterministic (self w)))).
    by rewrite applications_of_actions.
  - unfold parameterizations at 1. cbn [omap list_omap].
    apply parameterizations_of_actions.
Qed.

(** C8. The tensors registered by [tf_actions_and_internals] are, for each
    distribution in turn, the parameters of index 0, 1 and 2 under the names
    [logits], [probabilities] and [state_value], each name prefixed with the
    action's name and an underscore if and only if the model holds more than
    one distribution; with exactly one distribution the names are exactly
    those three. *)
Theorem named_tensor_prefix (states internals : Obj) (deterministic : bool)
    (net : Network) (ds : dict Distribution) (w : world) :
  network (self w) = Some net →
  distributions (self w) = Some ds →
  three_params (Network_apply net states internals false).1 ds →
  ∃ r new,
    tf_actions_and_internals states internals deterministic w =
      Ok (r, {| self := self w; calls := calls w ++ new |}) ∧
    named_tensors new =
      (ds ≫= λ item,
         zip [name_prefix (length ds) item.1 +:+ "logits";
              name_prefix (length ds) item.1 +:+ "probabilities";
              name_prefix (length ds) item.1 +:+ "state_value"]
             (Distribution_parameterize item.2
                (Network_apply net states internals false).1)) ∧
    (∀ name, name_prefix (length ds) name = name +:+ "_"
             ↔ (1 < length ds)%nat) ∧
    (length ds = 1%nat →
     (named_tensors new).*1 = ["logits"; "probabilities"; "state_value"]).
Proof.
  intros Hnet Hds Hthree. eexists _, _. split_and!.
  - by apply tf_actions_and_internals_run.
  - unfold named_tensors at 1. cbn [omap list_omap].
    apply named_tensors_of_actions.
  - intros name. apply name_prefix_iff.
  - intros Hone. unfold named_tensors at 1. cbn [omap list_omap].
    fold (named_tensors
            (ds ≫= calls_of_action (length ds)
                     (Network_apply net states internals false).1
                     (deterministic || requires_deterministic (self w)))).
    rewrite named_tensors_of_actions.
    destruct ds as [|[name d] [|??]]; simplify_eq/=.
    specialize (Hthree name d (list_elem_of_here _ _)).
    destruct (Distribution_parameterize d _) as [|? [|? [|? ?]]];
      simpl in Hthree; [lia..|done].
Qed.

(** *** tf_kl_divergence *)

Lemma tf_kl_divergence_loop embedding l acc w :
  for_each l (tf_kl_divergence_body embedding) acc w =
    Ok (acc ++ ((λ item, collapse (kl_of embedding item.2)) <$> l),
        {| self := self w; calls := calls w ++ (l ≫= calls_of_kl embedding) |}).
Proof.
  revert acc w. induction l as [|[name d] l IH]; intros acc w; cbn [for_each].
  - run. rewrite !(right_id_L [] (++)). by destruct w.
  - unfold mbind at 1, M_bind at 1.
    unfold tf_kl_divergence_body at 1, parameterize, kl_divergence. run.
    rewrite IH. cbn [self calls]. unfold kl_of.
    by rewrite <- !(assoc_L (++)).
Qed.

Lemma tf_kl_divergence_run s i a t r ns ni update reference net ds w :
  network (self w) = Some net →
  distributions (self w) = Some ds →
  tf_kl_divergence s i a t r ns ni update reference w =
    Ok (tf_reduce_mean
          (tf_reduce_mean
             (tf_concat
                ((λ item, collapse (kl_of (Network_apply net s i update).1 item.2))
                   <$> ds) 1) 1) 0,
        {| self := self w;
           calls := calls w ++ CallApply s i update false ::
                    (ds ≫= calls_of_kl (Network_apply net s i update).1) |}).
Proof.
  intros Hnet Hds. unfold tf_kl_divergence, network_apply. run.
  rewrite Hnet. run.
  destruct (Network_apply net s i update) as [embedding internals'].
  run. rewrite Hds. run. unfold PyDict.items.
  rewrite tf_kl_divergence_loop. run. by rewrite <- (assoc_L (++)).
Qed.

Lemma calls_of_kl_projections embedding l :
  applications (l ≫= calls_of_kl embedding) = [] ∧
  parameterizations (l ≫= calls_of_kl embedding) =
    ((λ item, (item.2, embedding)) <$> l) ∧
  kl_divergences (l ≫= calls_of_kl embedding) =
    ((λ item, (item.2,
               tf_stop_gradient <$> Distribution_parameterize item.2 embedding,
               Distribution_parameterize item.2 embedding)) <$> l).
Proof.
  unfold applications, parameterizations, kl_divergences.
  induction l as [|[name d] l (IH1 & IH2 & IH3)]; [done|].
  rewrite !bind_cons, !omap_app, IH1, IH2, IH3. done.
Qed.

(** C4. On an initialized model [tf_kl_divergence] applies the network once;
    for each distribution it takes the divergence of the parameters with the
    gradient stopped (first argument) from the parameters themselves
    (second argument); each result is reshaped to [(-1, collapsed)], the
    results are concatenated along axis 1, and the mean is taken along axis 1
    and then along axis 0. The argument [reference] does not matter. *)
Theorem kl_divergence_of_stopped_parameters
    (states internals actions terminal reward next_states next_internals : Obj)
    (update : bool) (reference : option Obj)
    (net : Network) (ds : dict Distribution) (w : world) :
  network (self w) = Some net →
  distributions (self w) = Some ds →
  ∃ new,
    tf_kl_divergence states internals actions terminal reward next_states
        next_internals update reference w =
      Ok (tf_reduce_mean
            (tf_reduce_mean
               (tf_concat
                  ((λ item,
                      let kl := kl_of (Network_apply net states internals update).1
                                  item.2 in
                      tf_reshape kl [(-1)%Z; util_prod (drop 1 (util_shape kl))])
                     <$> ds) 1) 1) 0,
          {| self := self w; calls := calls w ++ new |}) ∧
    applications new = [(states, internals, update, false)] ∧
    parameterizations new =
      ((λ item, (item.2, (Network_apply net states internals update).1)) <$> ds) ∧
    kl_divergences new =
      ((λ item,
          let distr_params :=
            Distribution_parameterize item.2
              (Network_apply net states internals update).1 in
          (item.2, tf_stop_gradient <$> distr_params, distr_params)) <$> ds) ∧
    ∀ reference',
      tf_kl_divergence states internals actions terminal reward next_states
        next_internals update reference' w =
      tf_kl_divergence states internals actions terminal reward next_states
        next_internals update reference w.
Proof.
  intros Hnet Hds. eexists. split_and!.
  - by apply tf_kl_divergence_run.
  - unfold applications at 1. cbn [omap list_omap].
    fold (applications
            (ds ≫= calls_of_kl (Network_apply net states internals update).1)).
    by rewrite (proj1 (calls_of_kl_projections _ _)).
  - unfold parameterizations at 1. cbn [omap list_omap].
    apply calls_of_kl_projections.
  - unfold kl_divergences at 1. cbn [omap list_omap].
    apply calls_of_kl_projections.
  - done.
Qed.

(** *** tf_regularization_losses *)

Lemma distribution_loss_loop l losses w :
  for_each l distribution_loss_body losses w =
    Ok (foldl with_distribution_loss losses l,
        {| self := self w;
           calls := calls w ++ (CallRegularizationLoss <$> l) |}).
Proof.
  revert losses w. induction l as [|d l IH]; intros losses w; cbn [for_each].
  - run. rewrite (right_id_L [] (++)). by destruct w.
  - unfold mbind at 1, M_bind at 1.
    unfold distribution_loss_body at 1, regularization_loss. run.
    rewrite IH. cbn [self calls]. by rewrite <- (assoc_L (++)).
Qed.

Lemma entropy_loop embedding l acc w :
  for_each l (entropy_body embedding) acc w =
    Ok (acc ++ ((λ item, entropy_of embedding item.2) <$> l),
        {| self := self w;
           calls := calls w ++ (l ≫= calls_of_entropy embedding) |}).
Proof.
  revert acc w. induction l as [|[name d] l IH]; intros acc w; cbn [for_each].
  - run. rewrite !(right_id_L [] (++)). by destruct w.
  - unfold mbind at 1, M_bind at 1.
    unfold entropy_body at 1, parameterize, entropy. run.
    rewrite IH. cbn [self calls]. unfold entropy_of, collapse.
    by rewrite <- !(assoc_L (++)).
Qed.

Lemma get_with_network_loss net losses k :
  k ≠ "network" →
  PyDict.get k (with_network_loss net losses) = PyDict.get k losses.
Proof.
  intros Hk. unfold with_network_loss.
  destruct (Network_regularization_loss net); [|done].
  by apply dict_get_set_ne.
Qed.

Lemma get_with_distribution_losses l losses k :
  k ≠ "distributions" →
  PyDict.get k (foldl with_distribution_loss losses l) = PyDict.get k losses.
Proof.
  intros Hk. revert losses. induction l as [|d l IH]; intros losses; [done|].
  cbn [foldl]. rewrite IH. unfold with_distribution_loss.
  destruct (Distribution_regularization_loss d); [|done].
  destruct (PyDict.get "distributions" losses); by apply dict_get_set_ne.
Qed.

Lemma tf_regularization_losses_run states internals update net ds losses0 w :
  network (self w) = Some net →
  distributions (self w) = Some ds →
  super_tf_regularization_losses states internals update (self w)
    = inr losses0 →
  ∃ w',
    tf_regularization_losses states internals update w =
      Ok (match entropy_regularization (self w) with
          | Some er =>
              if PrimFloat.ltb 0 er then
                PyDict.set "entropy"
                  (tf_scale (PrimFloat.opp er)
                     (mean_entropy (Network_apply net states internals update).1
                        ds))
                  (losses_before_entropy net ds losses0)
              else losses_before_entropy net ds losses0
          | None => losses_before_entropy net ds losses0
          end, w').
Proof.
  intros Hnet Hds Hsuper.
  unfold tf_regularization_losses, network_regularization_loss, network_apply.
  run. rewrite Hsuper. run. rewrite Hnet. run. rewrite Hds. run.
  rewrite distribution_loss_loop. run.
  fold (with_network_loss net losses0).
  fold (losses_before_entropy net ds losses0).
  destruct (entropy_regularization (self w)) as [er|]; [|by eauto].
  destruct (PrimFloat.ltb 0 er); [|by eauto].
  run. rewrite Hnet. run.
  destruct (Network_apply net states internals update) as [embedding ?].
  run. rewrite Hds. run. unfold PyDict.items.
  rewrite entropy_loop. run. unfold mean_entropy, PyDict.items.
  destruct (bool_decide _); run; by eauto.
Qed.

(** C3. On an initialized model whose superclass returns losses without an
    ['entropy'] entry, the dictionary returned by [tf_regularization_losses]
    has the key ['entropy'] if and only if [entropy_regularization] is not
    [None] and greater than 0.0; the value is then minus
    [entropy_regularization] times the batch mean of the per-instance mean of
    the concatenated per-action entropies. When [entropy_regularization] is
    [None] or equal to 0.0, the entry for ['entropy'] is the superclass's:
    none is added. *)
Theorem entropy_loss_entry (states internals : Obj) (update : bool)
    (net : Network) (ds : dict Distribution) (losses0 : dict Tensor)
    (w : world) :
  network (self w) = Some net →
  distributions (self w) = Some ds →
  super_tf_regularization_losses states internals update (self w)
    = inr losses0 →
  ∃ losses w',
    tf_regularization_losses states internals update w = Ok (losses, w') ∧
    (PyDict.get "entropy" losses0 = None →
     (is_Some (PyDict.get "entropy" losses) ↔
      ∃ er, entropy_regularization (self w) = Some er ∧
            PrimFloat.ltb 0 er = true)) ∧
    (∀ er, entropy_regularization (self w) = Some er →
       PrimFloat.ltb 0 er = true →
       PyDict.get "entropy" losses =
         Some (tf_scale (PrimFloat.opp er)
                 (tf_reduce_mean
                    (tf_reduce_mean
                       (tf_concat
                          ((λ item,
                              entropy_of
                                (Network_apply net states internals update).1
                                item.2) <$> PyDict.items ds) 1) 1) 0))) ∧
    ((entropy_regularization (self w) = None ∨
      ∃ er, entropy_regularization (self w) = Some er ∧
            PrimFloat.eqb er 0 = true) →
     PyDict.get "entropy" losses = PyDict.get "entropy" losses0).
Proof.
  intros Hnet Hds Hsuper.
  destruct (tf_regularization_losses_run states internals update net ds
              losses0 w) as [w' Hrun]; [done..|].
  assert (PyDict.get "entropy" (losses_before_entropy net ds losses0)
          = PyDict.get "entropy" losses0) as Hbefore.
  { unfold losses_before_entropy.
    rewrite get_with_distribution_losses by done.
    by apply get_with_network_loss. }
  eexists _, w'. split; [exact Hrun|]. split_and!.
  - intros Hnone. destruct (entropy_regularization (self w)) as [er|].
    + destruct (PrimFloat.ltb 0 er) eqn:Hlt.
      * rewrite dict_get_set_eq. split; [by eauto|by eauto].
      * rewrite Hbefore, Hnone. split; [by intros [??]|].
        intros (er' & [= <-] & ?). congruence.
    + rewrite Hbefore, Hnone. split; [by intros [??]|by intros (?&?&?)].
  - intros er -> ->. apply dict_get_set_eq.
  - intros [->|(er & -> & Heq)]; [done|].
    by rewrite (float_eq0_not_gt0 er Heq).
Qed.

(** *** optimizer_arguments *)

(** C7. When the superclass's arguments have no ['fn_kl_divergence'] entry,
    [optimizer_arguments] returns them with exactly one more entry, last:
    ['fn_kl_divergence'], bound to the model's [fn_kl_divergence]; every
    entry of the superclass's result is there unchanged. *)
Theorem optimizer_arguments_adds_fn_kl_divergence (b : batch)
    (arguments0 : dict argument) (w : world) :
  super_optimizer_arguments b (self w) = inr arguments0 →
  PyDict.get "fn_kl_divergence" arguments0 = None →
  ∃ arguments,
    optimizer_arguments b w = Ok (arguments, w) ∧
    PyDict.items arguments =
      PyDict.items arguments0 ++
      [("fn_kl_divergence", ArgTemplate (fn_kl_divergence (self w)))] ∧
    PyDict.keys arguments = PyDict.keys arguments0 ++ ["fn_kl_divergence"] ∧
    PyDict.get "fn_kl_divergence" arguments =
      Some (ArgTemplate (fn_kl_divergence (self w))) ∧
    ∀ k v, PyDict.get k arguments0 = Some v → PyDict.get k arguments = Some v.
Proof.
  intros Hsuper Hfresh. eexists. split_and!.
  - unfold optimizer_arguments. run. rewrite Hsuper. by run.
  - unfold PyDict.items. by apply dict_set_fresh.
  - rewrite dict_keys_set. unfold PyDict.mem. rewrite Hfresh.
    by rewrite bool_decide_eq_false_2 by (by intros [??]).
  - apply dict_get_set_eq.
  - intros k v Hk. rewrite dict_get_set_ne; [done|]. congruence.
Qed.

(** *** get_variables and get_summaries *)

Lemma per_distribution_loop {A} (f : Distribution → list A) ds l acc w :
  distributions (self w) = Some ds →
  l ⊆ PyDict.keys ds →
  for_each l (λ acc name,
      ds ← the_distributions (TypeError "getitem");
      d ← lift (PyDict.getitem name ds);
      mret (acc ++ f d)) acc w =
    Ok (acc ++ (l ≫= entries_of f ds), w).
Proof.
  intros Hds. revert acc.
  induction l as [|name l IH]; intros acc Hl; cbn [for_each].
  - run. by rewrite (right_id_L [] (++)).
  - unfold mbind at 1, M_bind at 1. run. rewrite Hds. run.
    assert (name ∈ PyDict.keys ds) as Hin by (apply Hl; left).
    apply dict_mem_true in Hin. unfold PyDict.mem in Hin.
    apply bool_decide_eq_true in Hin as [d Hd].
    unfold PyDict.getitem. rewrite Hd. run.
    rewrite IH by (intros x Hx; apply Hl; by right).
    unfold entries_of at 2. rewrite Hd. by rewrite <- (assoc_L (++)).
Qed.

Lemma per_distribution_run {A} (f : Distribution → list A) ds w :
  distributions (self w) = Some ds →
  per_distribution f w = Ok (distribution_entries f ds, w).
Proof.
  intros Hds. unfold per_distribution. run. rewrite Hds. run.
  rewrite (per_distribution_loop f ds); [done..|].
  intros x Hx. unfold sorted in Hx. by rewrite merge_sort_Permutation in Hx.
Qed.

Lemma sorted_ascending (names : list string) :
  StronglySorted String.le (sorted names) ∧ sorted names ≡ₚ names.
Proof.
  split; [apply StronglySorted_merge_sort; apply _|].
  apply merge_sort_Permutation.
Qed.

Lemma sorted_Permutation (names1 names2 : list string) :
  names1 ≡ₚ names2 → sorted names1 = sorted names2.
Proof.
  intros Hp. apply (Sorted_unique String.le).
  - apply Sorted_merge_sort, _.
  - apply Sorted_merge_sort, _.
  - unfold sorted. by rewrite !merge_sort_Permutation.
Qed.

Lemma dict_get_Permutation {V} (d1 d2 : dict V) (k : string) :
  PyDict.wf d1 → d1 ≡ₚ d2 → PyDict.get k d1 = PyDict.get k d2.
Proof.
  intros Hwf1 Hp.
  assert (PyDict.wf d2) as Hwf2.
  { unfold PyDict.wf, PyDict.keys in *. by rewrite <- Hp. }
  destruct (PyDict.get k d2) as [v|] eqn:E.
  - apply dict_elem_of_get; [done|]. rewrite Hp.
    by apply dict_get_Some_elem_of.
  - apply dict_get_None. apply dict_get_None in E.
    unfold PyDict.keys in *. by rewrite Hp.
Qed.

Lemma distribution_entries_Permutation {A} (f : Distribution → list A)
    (ds1 ds2 : dict Distribution) :
  PyDict.wf ds1 → ds1 ≡ₚ ds2 →
  distribution_entries f ds1 = distribution_entries f ds2.
Proof.
  intros Hwf Hp. unfold distribution_entries.
  rewrite (sorted_Permutation (PyDict.keys ds1) (PyDict.keys ds2))
    by (unfold PyDict.keys; by rewrite Hp).
  apply list_bind_ext; [|done].
  intros name. unfold entries_of.
  by rewrite (dict_get_Permutation ds1 ds2 name).
Qed.

(** C9. [get_variables] and [get_summaries] return the superclass's entries,
    then the network's, then the distributions' entries, distribution by
    distribution in ascending order of the action names; the result is the
    same for any other insertion order of the same distributions. *)
Theorem distribution_entries_in_name_order
    (include_submodules include_nontrainable : bool)
    (net : Network) (ds : dict Distribution)
    (model_variables : list TfVariable) (model_summaries : list TfSummary)
    (w : world) :
  network (self w) = Some net →
  distributions (self w) = Some ds →
  super_get_variables include_submodules include_nontrainable (self w)
    = inr model_variables →
  super_get_summaries (self w) = inr model_summaries →
  get_variables include_submodules include_nontrainable w =
    Ok (model_variables ++ Network_get_variables net include_nontrainable ++
        (sorted (PyDict.keys ds) ≫=
           entries_of (λ d, Distribution_get_variables d include_nontrainable)
             ds), w) ∧
  get_summaries w =
    Ok (model_summaries ++ Network_get_summaries net ++
        (sorted (PyDict.keys ds) ≫= entries_of Distribution_get_summaries ds),
        w) ∧
  StronglySorted String.le (sorted (PyDict.keys ds)) ∧
  sorted (PyDict.keys ds) ≡ₚ PyDict.keys ds ∧
  ∀ ds' w',
    PyDict.wf ds → ds' ≡ₚ ds →
    network (self w') = Some net →
    distributions (self w') = Some ds' →
    super_get_variables include_submodules include_nontrainable (self w')
      = inr model_variables →
    super_get_summaries (self w') = inr model_summaries →
    returned (get_variables include_submodules include_nontrainable w')
      = returned (get_variables include_submodules include_nontrainable w) ∧
    returned (get_summaries w') = returned (get_summaries w).
Proof.
  intros Hnet Hds Hsv Hss.
  assert (∀ w1 ds1, network (self w1) = Some net →
            distributions (self w1) = Some ds1 →
            super_get_variables include_submodules include_nontrainable
              (self w1) = inr model_variables →
            get_variables include_submodules include_nontrainable w1 =
              Ok (model_variables ++
                  Network_get_variables net include_nontrainable ++
                  distribution_entries
                    (λ d, Distribution_get_variables d include_nontrainable)
                    ds1, w1)) as Hvars.
  { intros w1 ds1 Hnet1 Hds1 Hsv1. unfold get_variables. run.
    rewrite Hsv1. run. rewrite Hnet1. run.
    rewrite (per_distribution_run _ ds1) by done.
    by rewrite <- (assoc_L (++)). }
  assert (∀ w1 ds1, network (self w1) = Some net →
            distributions (self w1) = Some ds1 →
            super_get_summaries (self w1) = inr model_summaries →
            get_summaries w1 =
              Ok (model_summaries ++ Network_get_summaries net ++
                  distribution_entries Distribution_get_summaries ds1, w1))
    as Hsums.
  { intros w1 ds1 Hnet1 Hds1 Hss1. unfold get_summaries. run.
    rewrite Hss1. run. rewrite Hnet1. run.
    by rewrite (per_distribution_run _ ds1) by done. }
  split_and!.
  - by apply Hvars.
  - by apply Hsums.
  - apply sorted_ascending.
  - apply sorted_ascending.
  - intros ds' w' Hwf Hp Hnet' Hds' Hsv' Hss'.
    rewrite (Hvars w ds), (Hvars w' ds'), (Hsums w ds), (Hsums w' ds') by done.
    simpl. symmetry in Hp.
    by rewrite !(distribution_entries_Permutation _ ds ds').
Qed.

(** ** Further properties *)

(** *** create_distributions: order, skipped actions, failures *)

Lemma elem_of_distributed_names m l name :
  name ∈ distributed_names m l →
  ∃ action, (name, action) ∈ l ∧
            is_Some (expected_distribution m name action).
Proof.
  unfold distributed_names. rewrite list_elem_of_omap.
  intros ([name' action] & Hin & Hsome). simpl in Hsome.
  destruct (expected_distribution m name' action) eqn:E; [|done].
  injection Hsome as <-. exists action. by rewrite E.
Qed.

Lemma distributed_names_sublist m l :
  sublist (distributed_names m l) (PyDict.keys l).
Proof.
  unfold distributed_names, PyDict.keys.
  induction l as [|[n a] l IH]; [done|].
  cbn [omap list_omap fmap list_fmap fst snd].
  destruct (expected_distribution m n a);
    [by apply sublist_skip|by apply sublist_cons].
Qed.

Lemma create_distributions_loop_keys m w l acc :
  NoDup l.*1 →
  (∀ name, name ∈ l.*1 → name ∉ PyDict.keys acc) →
  (∀ name action, (name, action) ∈ l → overridden m name ∨ complete action) →
  ∃ ds, for_each l (create_distributions_body m) acc w = Ok (ds, w) ∧
        PyDict.keys ds = PyDict.keys acc ++ distributed_names m l.
Proof.
  revert acc. induction l as [|[name action] l IH]; intros acc Hnd Hfresh Hc.
  - exists acc. split; [done|]. symmetry. apply app_nil_r.
  - apply NoDup_cons in Hnd as [Hname Hnd]. cbn [for_each].
    unfold mbind at 1, M_bind at 1.
    rewrite create_distributions_body_run by (apply Hc; left).
    unfold distributed_names. cbn [omap list_omap fst snd].
    fold (distributed_names m l).
    assert (PyDict.mem name acc = false) as Hmem.
    { apply not_true_is_false. rewrite dict_mem_true. apply Hfresh. left. }
    destruct (expected_distribution m name action) as [d|].
    + destruct (IH (PyDict.set name d acc)) as (ds & Hrun & Hkeys); [done| |..].
      { intros x Hx. rewrite dict_keys_set, Hmem.
        rewrite not_elem_of_app, not_elem_of_cons. split_and!.
        - apply Hfresh. by right.
        - by intros ->.
        - apply not_elem_of_nil. }
      { intros ???. apply Hc. by right. }
      exists ds. split; [done|].
      by rewrite Hkeys, dict_keys_set, Hmem, <- (assoc_L (++)).
    + destruct (IH acc) as (ds & Hrun & Hkeys); [done| |..].
      { intros x Hx. apply Hfresh. by right. }
      { intros ???. apply Hc. by right. }
      by exists ds.
Qed.

(** X1. The dictionary that [create_distributions] returns lists the
    distributions in the order of [actions_spec], and has no entry for an
    action that has none in [distributions_spec] and whose type is none of
    ['bool'], ['int'], ['float']. *)
Theorem create_distributions_order (w : world) :
  PyDict.wf (actions_spec (self w)) →
  (∀ name action, (name, action) ∈ PyDict.items (actions_spec (self w)) →
     overridden (self w) name ∨ complete action) →
  ∃ ds, create_distributions w = Ok (ds, w) ∧
    PyDict.keys ds = distributed_names (self w) (actions_spec (self w)) ∧
    sublist (PyDict.keys ds) (PyDict.keys (actions_spec (self w))) ∧
    ∀ name action, (name, action) ∈ PyDict.items (actions_spec (self w)) →
      ¬ overridden (self w) name → ¬ typed action →
      PyDict.get name ds = None.
Proof.
  intros Hwf Hc.
  destruct (create_distributions_loop_keys (self w) w (actions_spec (self w)) [])
    as (ds & Hrun & Hkeys); [done|by intros ? _; apply not_elem_of_nil|done|].
  simpl in Hkeys. exists ds. split_and!.
  - unfold create_distributions. by run.
  - done.
  - rewrite Hkeys. apply distributed_names_sublist.
  - intros name action Hin Hno Hnt. apply dict_get_None. rewrite Hkeys.
    intros (action' & Hin' & Hsome)%elem_of_distributed_names.
    assert (action' = action) as ->.
    { unfold PyDict.items in Hin.
      apply (dict_elem_of_get name action') in Hin'; [|done].
      apply (dict_elem_of_get name action) in Hin; [|done]. congruence. }
    revert Hsome. unfold expected_distribution, overridden, typed in *.
    destruct (distributions_spec (self w) ≫= PyDict.get name);
      [by destruct Hno; eauto|].
    destruct (PyDict.get "type" action) as [ty|]; [|by intros [??]]. simpl.
    destruct (PyDict.get "shape" action); [|by intros [??]]. simpl.
    destruct (value_eq_str ty "bool") eqn:Eb.
    { destruct Hnt. exists ty. by rewrite Eb. }
    destruct (value_eq_str ty "int") eqn:Ei.
    { destruct Hnt. exists ty. by rewrite Eb, Ei. }
    destruct (value_eq_str ty "float") eqn:Ef; [|by intros [??]].
    destruct Hnt. exists ty. by rewrite Eb, Ei, Ef.
Qed.

Lemma create_distributions_body_fails m acc name action k w :
  ¬ overridden m name →
  first_missing_key action = Some k →
  create_distributions_body m acc (name, action) w = Err (KeyError k).
Proof.
  unfold overridden, first_missing_key, or_missing, create_distributions_body,
    default_distribution, PyDict.getitem, PyDict.mem.
  intros Hno Hk. run.
  destruct (distributions_spec m) as [dspec|]; simpl in *.
  - destruct (PyDict.get name dspec); simpl in *; [by destruct Hno; eauto|].
    run. repeat case_match; simplify_eq/=; try done;
      by repeat match goal with H : ¬ is_Some (Some _) |- _ => destruct H end.
  - run. repeat case_match; simplify_eq/=; try done;
      by repeat match goal with H : ¬ is_Some (Some _) |- _ => destruct H end.
Qed.

Lemma value_eq_str_excl (v : value) (s1 s2 : string) :
  s1 ≠ s2 → value_eq_str v s1 = true → value_eq_str v s2 = false.
Proof.
  destruct v; simpl; try done.
  intros Hne ->%bool_decide_eq_true. by apply bool_decide_eq_false.
Qed.

Lemma first_missing_key_None action :
  first_missing_key action = None ↔ complete action.
Proof.
  unfold first_missing_key, complete, or_missing, PyDict.mem.
  destruct (PyDict.get "type" action) as [ty|];
    [|split; [done|by intros (? & ? & _)]].
  pose proof (value_eq_str_excl ty "bool" "int" ltac:(done)) as Hbi.
  pose proof (value_eq_str_excl ty "bool" "float" ltac:(done)) as Hbf.
  pose proof (value_eq_str_excl ty "int" "float" ltac:(done)) as Hif.
  split.
  - intros Hk. exists ty. split; [done|].
    destruct (value_eq_str ty "bool"), (value_eq_str ty "int"),
      (value_eq_str ty "float"); simpl;
      try (by specialize (Hbi eq_refl)); try (by specialize (Hbf eq_refl));
      try (by specialize (Hif eq_refl));
      repeat case_bool_decide; simplify_eq/=; split_and!; done.
  - intros (ty' & [= <-] & Hshape & Hnum & Hmax).
    destruct (value_eq_str ty "bool"), (value_eq_str ty "int"),
      (value_eq_str ty "float"); simpl in *;
      try (by specialize (Hbi eq_refl)); try (by specialize (Hbf eq_refl));
      try (by specialize (Hif eq_refl));
      repeat case_bool_decide; try done;
      repeat match goal with
             | H : ¬ is_Some _ |- _ => destruct H; by eauto
             end.
Qed.

(** X2. [create_distributions] fails with [KeyError] on the first action
    that lacks an entry the code reads, naming the first such entry:
    ['type'], then ['shape'], then ['num_actions'] for ['int'] and
    ['max_value'] for a ['float'] with ['min_value']; the later actions are
    not looked at. An action lacks no such entry exactly when it is
    [complete]. *)
Theorem create_distributions_missing_key (w : world)
    (pre post : dict (dict value)) (name k : string) (action : dict value) :
  PyDict.items (actions_spec (self w)) = pre ++ (name, action) :: post →
  (∀ name' action', (name', action') ∈ pre →
     overridden (self w) name' ∨ complete action') →
  ¬ overridden (self w) name →
  first_missing_key action = Some k →
  create_distributions w = Err (KeyError k) ∧
  ¬ complete action ∧
  k ∈ ["type"; "shape"; "num_actions"; "max_value"].
Proof.
  intros Hitems Hpre Hno Hk. split_and!.
  - unfold create_distributions. run. rewrite Hitems. clear Hitems.
    generalize (@nil (string * Distribution)) as acc.
    induction pre as [|[n a] pre IH]; intros acc;
      cbn [app for_each]; unfold mbind at 1, M_bind at 1.
    + by rewrite (create_distributions_body_fails _ _ _ _ k).
    + rewrite create_distributions_body_run by (apply Hpre; left).
      apply IH. intros ???. apply Hpre. by right.
  - intros Hc%first_missing_key_None. congruence.
  - revert Hk. unfold first_missing_key, or_missing.
    repeat case_match; intros; simplify_eq; set_solver.
Qed.



(** *** initialize: what a returning run leaves *)


(** *** Methods on a model that is not initialized *)

(** X5. On a model whose [network] is still [None], each method that uses the
    network raises [AttributeError] for the network method it wanted to
    call; a superclass method called first has returned by then. With the
    network set and [distributions] still [None],
    [tf_actions_and_internals] and [tf_kl_divergence] raise after applying
    the network, and the two getters raise [TypeError]. *)
Theorem methods_before_initialize
    (states internals actions terminal reward next_states next_internals : Obj)
    (deterministic update : bool) (reference : option Obj)
    (include_submodules include_nontrainable : bool) (w : world) :
  (network (self w) = None →
   tf_actions_and_internals states internals deterministic w
     = Err (AttributeError "apply") ∧
   tf_kl_divergence states internals actions terminal reward next_states
       next_internals update reference w
     = Err (AttributeError "apply") ∧
   (∀ losses,
      super_tf_regularization_losses states internals update (self w)
        = inr losses →
      tf_regularization_losses states internals update w
        = Err (AttributeError "regularization_loss")) ∧
   (∀ variables,
      super_get_variables include_submodules include_nontrainable (self w)
        = inr variables →
      get_variables include_submodules include_nontrainable w
        = Err (AttributeError "get_variables")) ∧
   (∀ summaries, super_get_summaries (self w) = inr summaries →
      get_summaries w = Err (AttributeError "get_summaries"))) ∧
  (is_Some (network (self w)) → distributions (self w) = None →
   tf_actions_and_internals states internals deterministic w
     = Err (AttributeError "items") ∧
   tf_kl_divergence states internals actions terminal reward next_states
       next_internals update reference w
     = Err (AttributeError "items") ∧
   (∀ variables,
      super_get_variables include_submodules include_nontrainable (self w)
        = inr variables →
      get_variables include_submodules include_nontrainable w
        = Err (TypeError "iter")) ∧
   (∀ summaries, super_get_summaries (self w) = inr summaries →
      get_summaries w = Err (TypeError "iter"))).
Proof.
  split.
  - intros Hnet. split_and!.
    + unfold tf_actions_and_internals. run. by rewrite Hnet.
    + unfold tf_kl_divergence. run. by rewrite Hnet.
    + intros r Hr. unfold tf_regularization_losses. run. rewrite Hr. run.
      by rewrite Hnet.
    + intros r Hr. unfold get_variables. run. rewrite Hr. run.
      by rewrite Hnet.
    + intros r Hr. unfold get_summaries. run. rewrite Hr. run.
      by rewrite Hnet.
  - intros [net Hnet] Hds. split_and!.
    + unfold tf_actions_and_internals, network_apply. run. rewrite Hnet. run.
      destruct (Network_apply _ _ _ _). run. by rewrite Hds.
    + unfold tf_kl_divergence, network_apply. run. rewrite Hnet. run.
      destruct (Network_apply _ _ _ _). run. by rewrite Hds.
    + intros r Hr. unfold get_variables, per_distribution. run.
      rewrite Hr. run. rewrite Hnet. run. by rewrite Hds.
    + intros r Hr. unfold get_summaries, per_distribution. run.
      rewrite Hr. run. rewrite Hnet. run. by rewrite Hds.
Qed.

(** *** tf_actions_and_internals: short parameter tuples, the actions *)

Lemma tf_actions_and_internals_body_fails embedding det actions name d ds w :
  distributions (self w) = Some ds →
  (length (Distribution_parameterize d embedding) < 3)%nat →
  tf_actions_and_internals_body embedding det actions (name, d) w
    = Err IndexError.
Proof.
  intros Hds Hlen.
  unfold tf_actions_and_internals_body, parameterize, sample,
    network_set_named_tensor.
  run. rewrite Hds. run.
  destruct (Distribution_parameterize d embedding) as [|t0 [|t1 [|t2 rest]]];
    simpl in Hlen; try lia; by run.
Qed.

Lemma tf_actions_and_internals_loop_fails embedding det ds pre name d post
    actions w :
  distributions (self w) = Some ds →
  three_params embedding pre →
  (length (Distribution_parameterize d embedding) < 3)%nat →
  for_each (pre ++ (name, d) :: post)
    (tf_actions_and_internals_body embedding det) actions w = Err IndexError.
Proof.
  intros Hds Hpre Hlen. revert actions w Hds.
  induction pre as [|[n0 d0] pre IH]; intros actions w Hds;
    cbn [app for_each]; unfold mbind at 1, M_bind at 1.
  - by erewrite tf_actions_and_internals_body_fails.
  - erewrite tf_actions_and_internals_body_run;
      [|done|by eapply Hpre; left].
    apply IH; [|done]. intros ???. eapply Hpre. by right.
Qed.

(** X6. When a distribution's [parameterize] returns fewer than three
    tensors, the distributions before it having returned three or more,
    [tf_actions_and_internals] raises [IndexError]. *)
Theorem tf_actions_and_internals_short_parameters (states internals : Obj)
    (deterministic : bool) (net : Network)
    (pre post : dict Distribution) (name : string) (d : Distribution)
    (w : world) :
  network (self w) = Some net →
  distributions (self w) = Some (pre ++ (name, d) :: post) →
  three_params (Network_apply net states internals false).1 pre →
  (length (Distribution_parameterize d
             (Network_apply net states internals false).1) < 3)%nat →
  tf_actions_and_internals states internals deterministic w = Err IndexError.
Proof.
  intros Hnet Hds Hpre Hlen.
  unfold tf_actions_and_internals, network_apply. run. rewrite Hnet. run.
  destruct (Network_apply net states internals false) as [embedding internals'].
  run. rewrite Hds. run. unfold PyDict.items.
  by erewrite tf_actions_and_internals_loop_fails.
Qed.

Lemma sampled_keys embedding flag (l : dict Distribution) acc :
  NoDup (PyDict.keys l) →
  (∀ name, name ∈ PyDict.keys l → name ∉ PyDict.keys acc) →
  PyDict.keys (foldl (sampled embedding flag) acc l)
    = PyDict.keys acc ++ PyDict.keys l ∧
  (∀ name, name ∉ PyDict.keys l →
     PyDict.get name (foldl (sampled embedding flag) acc l)
       = PyDict.get name acc) ∧
  ∀ name d, (name, d) ∈ l →
    PyDict.get name (foldl (sampled embedding flag) acc l) =
      Some (Distribution_sample d (Distribution_parameterize d embedding) flag).
Proof.
  revert acc. induction l as [|[n d] l IH]; intros acc Hnd Hfresh.
  - split_and!; [symmetry; apply app_nil_r|done|].
    by intros ?? ?%elem_of_nil.
  - unfold PyDict.keys in Hnd. cbn [fmap list_fmap fst] in Hnd.
    apply NoDup_cons in Hnd as [Hn Hnd]. cbn [foldl].
    assert (PyDict.mem n acc = false) as Hmem.
    { apply not_true_is_false. rewrite dict_mem_true. apply Hfresh. left. }
    destruct (IH (sampled embedding flag acc (n, d))) as (Hk & Hframe & Hget);
      [done| |].
    { intros x Hx. unfold sampled. cbn [fst snd]. rewrite dict_keys_set, Hmem.
      rewrite not_elem_of_app, not_elem_of_cons. split_and!.
      - apply Hfresh. by right.
      - by intros ->.
      - apply not_elem_of_nil. }
    split_and!.
    + rewrite Hk. unfold sampled at 1. cbn [fst snd].
      rewrite dict_keys_set, Hmem. unfold PyDict.keys.
      by rewrite <- (assoc_L (++)).
    + intros name [Hne Hnin]%not_elem_of_cons. rewrite Hframe by done.
      unfold sampled. cbn [fst snd]. by apply dict_get_set_ne.
    + intros name d' [[= -> ->]|Hin]%elem_of_cons; [|by apply Hget].
      rewrite Hframe by done. unfold sampled. cbn [fst snd].
      apply dict_get_set_eq.
Qed.

(** X7. A returning [tf_actions_and_internals] leaves the model as it was
    and returns one action per distribution, under the distribution's name
    and in the order of the dictionary; the action is what [sample] returned
    for that distribution's parameters. *)
Theorem tf_actions_and_internals_actions (states internals : Obj)
    (deterministic : bool) (net : Network) (ds : dict Distribution)
    (w : world) :
  network (self w) = Some net →
  distributions (self w) = Some ds →
  PyDict.wf ds →
  three_params (Network_apply net states internals false).1 ds →
  ∃ actions internals' w',
    tf_actions_and_internals states internals deterministic w
      = Ok ((actions, internals'), w') ∧
    self w' = self w ∧
    PyDict.keys actions = PyDict.keys ds ∧
    ∀ name d, (name, d) ∈ PyDict.items ds →
      PyDict.get name actions =
        Some (Distribution_sample d
                (Distribution_parameterize d
                   (Network_apply net states internals false).1)
                (deterministic || requires_deterministic (self w))).
Proof.
  intros Hnet Hds Hwf Hthree. eexists _, _, _. split.
  { by apply tf_actions_and_internals_run. }
  destruct (sampled_keys (Network_apply net states internals false).1
              (deterministic || requires_deterministic (self w)) ds [])
    as (Hk & _ & Hget); [done|by intros ? _; apply not_elem_of_nil|].
  by split_and!.
Qed.

(** *** tf_actions_and_internals: the registered names do not collide *)

Lemma list_ascii_of_string_app (s1 s2 : string) :
  String.list_ascii_of_string (s1 +:+ s2)
    = String.list_ascii_of_string s1 ++ String.list_ascii_of_string s2.
Proof.
  induction s1 as [|a s1 IH]; [done|].
  change (a :: String.list_ascii_of_string (s1 +:+ s2)
          = a :: (String.list_ascii_of_string s1
                  ++ String.list_ascii_of_string s2)).
  by rewrite IH.
Qed.

Lemma list_ascii_of_string_inj (s1 s2 : string) :
  String.list_ascii_of_string s1 = String.list_ascii_of_string s2 → s1 = s2.
Proof.
  intros Heq. rewrite <- (String.string_of_list_ascii_of_string s1),
    <- (String.string_of_list_ascii_of_string s2). by rewrite Heq.
Qed.

(** Two names with suffixes among the three: equal only when the action
    names are. *)
Lemma prefixed_names_inj (name1 name2 suffix1 suffix2 : string) :
  suffix1 ∈ ["logits"; "probabilities"; "state_value"] →
  suffix2 ∈ ["logits"; "probabilities"; "state_value"] →
  (name1 +:+ "_") +:+ suffix1 = (name2 +:+ "_") +:+ suffix2 →
  name1 = name2 ∧ suffix1 = suffix2.
Proof.
  intros H1 H2 Heq.
  apply (f_equal String.list_ascii_of_string) in Heq.
  rewrite !list_ascii_of_string_app in Heq.
  apply (f_equal reverse) in Heq. rewrite !reverse_app in Heq.
  repeat (apply elem_of_cons in H1 as [->|H1]);
    [| | |by apply elem_of_nil in H1];
    repeat (apply elem_of_cons in H2 as [->|H2]);
    try (by apply elem_of_nil in H2);
    simpl in Heq; try discriminate Heq;
    (split; [|done]); apply list_ascii_of_string_inj, (inj reverse);
    congruence.
Qed.

Lemma tensor_names_NoDup (n : nat) (name : string) :
  NoDup (tensor_names n name).
Proof.
  unfold tensor_names. generalize (name_prefix n name) as p. intros p.
  repeat (apply NoDup_cons; split); [| |by apply not_elem_of_nil|constructor].
  - rewrite !not_elem_of_cons. split_and!; [| |apply not_elem_of_nil];
      by intros ?%(inj (String.append p)).
  - rewrite !not_elem_of_cons. split_and!; [|apply not_elem_of_nil].
    by intros ?%(inj (String.append p)).
Qed.

Lemma tensor_names_disjoint (n : nat) (name1 name2 y : string) :
  (1 < n)%nat →
  y ∈ tensor_names n name1 → y ∈ tensor_names n name2 → name1 = name2.
Proof.
  intros Hn. unfold tensor_names, name_prefix.
  rewrite bool_decide_eq_true_2 by done.
  intros H1 H2.
  assert (∀ name,
    y ∈ [(name +:+ "_") +:+ "logits"; (name +:+ "_") +:+ "probabilities";
         (name +:+ "_") +:+ "state_value"] →
    ∃ suffix, suffix ∈ ["logits"; "probabilities"; "state_value"] ∧
              y = (name +:+ "_") +:+ suffix) as Hsuffix.
  { intros name. rewrite !elem_of_cons.
    intros [->|[->|[->|?%elem_of_nil]]]; [| | |done];
      eexists; (split; [|done]); rewrite !elem_of_cons; by eauto. }
  destruct (Hsuffix _ H1) as (s1 & Hs1 & ->).
  destruct (Hsuffix _ H2) as (s2 & Hs2 & Heq).
  by destruct (prefixed_names_inj name1 name2 s1 s2).
Qed.

Lemma registered_names n embedding (l : dict Distribution) :
  three_params embedding l →
  (l ≫= λ item, zip (tensor_names n item.1)
                  (Distribution_parameterize item.2 embedding)).*1
    = PyDict.keys l ≫= tensor_names n.
Proof.
  intros Hthree. unfold PyDict.keys.
  induction l as [|[name d] l IH]; [done|].
  rewrite fmap_cons, !bind_cons, fmap_app. cbn [fst snd]. f_equal.
  - apply fst_zip. unfold tensor_names. simpl. apply (Hthree name d). left.
  - apply IH. intros ???. eapply Hthree. by right.
Qed.

(** X8. The names under which a returning [tf_actions_and_internals]
    registers tensors are pairwise distinct, three per distribution: no
    registration replaces another, whether the names carry a prefix (two or
    more distributions) or not. *)
Theorem named_tensors_distinct (states internals : Obj) (deterministic : bool)
    (net : Network) (ds : dict Distribution) (w : world) :
  network (self w) = Some net →
  distributions (self w) = Some ds →
  PyDict.wf ds →
  three_params (Network_apply net states internals false).1 ds →
  ∃ r new,
    tf_actions_and_internals states internals deterministic w =
      Ok (r, {| self := self w; calls := calls w ++ new |}) ∧
    (named_tensors new).*1 =
      (PyDict.keys ds ≫= tensor_names (length ds)) ∧
    NoDup (named_tensors new).*1.
Proof.
  intros Hnet Hds Hwf Hthree. eexists _, _. split.
  { by apply tf_actions_and_internals_run. }
  assert (named_tensors
            (CallApply states internals false true ::
             (ds ≫= calls_of_action (length ds)
                      (Network_apply net states internals false).1
                      (deterministic || requires_deterministic (self w))))
          = ds ≫= λ item,
              zip (tensor_names (length ds) item.1)
                (Distribution_parameterize item.2
                   (Network_apply net states internals false).1)) as ->.
  { unfold named_tensors at 1. cbn [omap list_omap].
    apply named_tensors_of_actions. }
  rewrite registered_names by done.
  split; [done|].
  destruct (decide (1 < length ds)%nat) as [Hn|Hn].
  - apply NoDup_bind; [|by intros; apply tensor_names_NoDup|done].
    intros x1 x2 y _ _. by apply tensor_names_disjoint.
  - destruct ds as [|[name d] [|??]]; simpl in Hn; [constructor| |lia].
    unfold PyDict.keys. cbn [fmap list_fmap fst mbind list_bind].
    rewrite app_nil_r. apply tensor_names_NoDup.
Qed.

(** *** tf_regularization_losses: the other entries, the calls, the model *)

Lemma get_distributions_losses l losses :
  PyDict.get "distributions" (foldl with_distribution_loss losses l)
    = summed_loss (PyDict.get "distributions" losses) l.
Proof.
  revert losses. induction l as [|d l IH]; intros losses; [done|].
  unfold summed_loss. cbn [foldl]. rewrite IH. unfold summed_loss. f_equal.
  unfold with_distribution_loss.
  destruct (Distribution_regularization_loss d); [|done].
  destruct (PyDict.get "distributions" losses); apply dict_get_set_eq.
Qed.

Lemma get_other_losses net ds losses0 k :
  k ≠ "network" → k ≠ "distributions" →
  PyDict.get k (losses_before_entropy net ds losses0) = PyDict.get k losses0.
Proof.
  intros Hn Hd. unfold losses_before_entropy.
  rewrite get_with_distribution_losses by done.
  by apply get_with_network_loss.
Qed.

(** X9. In the losses that [tf_regularization_losses] returns, ['network']
    is the network's regularization loss when it has one, ['distributions']
    is the sum, in the order of the dictionary, of the losses of the
    distributions that have one (on top of the superclass's entry, if any),
    and every entry other than these two and ['entropy'] is the
    superclass's. *)
Theorem regularization_loss_entries (states internals : Obj) (update : bool)
    (net : Network) (ds : dict Distribution) (losses0 : dict Tensor)
    (w : world) :
  network (self w) = Some net →
  distributions (self w) = Some ds →
  super_tf_regularization_losses states internals update (self w)
    = inr losses0 →
  ∃ losses w',
    tf_regularization_losses states internals update w = Ok (losses, w') ∧
    PyDict.get "network" losses =
      match Network_regularization_loss net with
      | Some l => Some l
      | None => PyDict.get "network" losses0
      end ∧
    PyDict.get "distributions" losses =
      summed_loss (PyDict.get "distributions" losses0) (PyDict.values ds) ∧
    ∀ k, k ∉ ["network"; "distributions"; "entropy"] →
         PyDict.get k losses = PyDict.get k losses0.
Proof.
  intros Hnet Hds Hsuper.
  destruct (tf_regularization_losses_run states internals update net ds
              losses0 w) as [w' Hrun]; [done..|].
  eexists _, w'. split; [exact Hrun|].
  assert (∀ k, k ≠ "entropy" →
    PyDict.get k
      match entropy_regularization (self w) with
      | Some er =>
          if PrimFloat.ltb 0 er then
            PyDict.set "entropy"
              (tf_scale (PrimFloat.opp er)
                 (mean_entropy (Network_apply net states internals update).1 ds))
              (losses_before_entropy net ds losses0)
          else losses_before_entropy net ds losses0
      | None => losses_before_entropy net ds losses0
      end = PyDict.get k (losses_before_entropy net ds losses0)) as Hskip.
  { intros k Hk. destruct (entropy_regularization (self w)) as [er|]; [|done].
    destruct (PrimFloat.ltb 0 er); [|done]. rewrite dict_get_set_ne; done. }
  split_and!.
  - rewrite Hskip by done. unfold losses_before_entropy.
    rewrite get_with_distribution_losses by done. unfold with_network_loss.
    destruct (Network_regularization_loss net); [|done].
    apply dict_get_set_eq.
  - rewrite Hskip by done. unfold losses_before_entropy.
    rewrite get_distributions_losses. f_equal.
    by apply get_with_network_loss.
  - intros k Hk. rewrite !not_elem_of_cons in Hk.
    destruct Hk as (? & ? & ? & _).
    rewrite Hskip by done. by apply get_other_losses.
Qed.

Lemma tf_regularization_losses_world states internals update net ds losses0 w :
  network (self w) = Some net →
  distributions (self w) = Some ds →
  super_tf_regularization_losses states internals update (self w)
    = inr losses0 →
  ∃ losses,
    tf_regularization_losses states internals update w =
      Ok (losses,
          {| self :=
               set_summaries
                 (summaries (self w) ++
                  entropy_summary (self w)
                    (Network_apply net states internals update).1 ds)
                 (self w);
             calls :=
               calls w ++ CallNetworkRegularizationLoss ::
               (CallRegularizationLoss <$> PyDict.values ds) ++
               if regularizes (entropy_regularization (self w)) then
                 CallApply states internals update false ::
                 (ds ≫= calls_of_entropy
                          (Network_apply net states internals update).1)
               else [] |}).
Proof.
  intros Hnet Hds Hsuper.
  assert (∀ m : Model, set_summaries (summaries m ++ []) m = m) as Hid.
  { intros m. rewrite app_nil_r. by destruct m. }
  unfold tf_regularization_losses, network_regularization_loss, network_apply,
    entropy_summary, regularizes.
  run. rewrite Hsuper. run. rewrite Hnet. run. rewrite Hds. run.
  rewrite distribution_loss_loop. run.
  destruct (entropy_regularization (self w)) as [er|].
  2:{ eexists. run. rewrite Hid, app_nil_r. f_equal. f_equal. f_equal.
      by rewrite <- (assoc_L (++)). }
  destruct (PrimFloat.ltb 0 er).
  2:{ eexists. run. rewrite Hid, app_nil_r. f_equal. f_equal. f_equal.
      by rewrite <- (assoc_L (++)). }
  run. rewrite Hnet. run.
  destruct (Network_apply net states internals update) as [embedding ?].
  run. rewrite Hds. run. unfold PyDict.items.
  rewrite entropy_loop. run. unfold mean_entropy, PyDict.items.
  destruct (bool_decide _); run; eexists; f_equal; f_equal; f_equal;
    rewrite ?Hid; try done;
    by rewrite <- !(assoc_L (++)).
Qed.

Lemma regularization_loss_calls_projections (l : list Distribution) :
  applications (CallRegularizationLoss <$> l) = [] ∧
  parameterizations (CallRegularizationLoss <$> l) = [].
Proof.
  unfold applications, parameterizations.
  induction l as [|d l [IH1 IH2]]; [done|].
  rewrite fmap_cons. cbn [omap list_omap]. by rewrite IH1, IH2.
Qed.

Lemma calls_of_entropy_projections embedding (l : dict Distribution) :
  applications (l ≫= calls_of_entropy embedding) = [] ∧
  parameterizations (l ≫= calls_of_entropy embedding) =
    ((λ item, (item.2, embedding)) <$> l).
Proof.
  unfold applications, parameterizations.
  induction l as [|[name d] l (IH1 & IH2)]; [done|].
  rewrite !bind_cons, !omap_app, IH1, IH2. done.
Qed.

(** X10. [tf_regularization_losses] applies the network only for the
    entropy term: not at all when [entropy_regularization] is [None] or not
    above 0.0, and then it parameterizes no distribution and leaves the model
    as it was; exactly once, with the caller's [update], when it is above
    0.0. The only attribute it ever changes is [summaries], which gets one
    scalar summary named ['entropy'] when the term is entered and
    ['entropy'] is a summary label. *)
Theorem regularization_losses_effects (states internals : Obj) (update : bool)
    (net : Network) (ds : dict Distribution) (losses0 : dict Tensor)
    (w : world) :
  network (self w) = Some net →
  distributions (self w) = Some ds →
  super_tf_regularization_losses states internals update (self w)
    = inr losses0 →
  ∃ losses w' new,
    tf_regularization_losses states internals update w = Ok (losses, w') ∧
    calls w' = calls w ++ new ∧
    self w' =
      set_summaries
        (summaries (self w) ++
         entropy_summary (self w)
           (Network_apply net states internals update).1 ds)
        (self w) ∧
    (regularizes (entropy_regularization (self w)) = false →
     self w' = self w ∧ applications new = [] ∧ parameterizations new = []) ∧
    (regularizes (entropy_regularization (self w)) = true →
     applications new = [(states, internals, update, false)] ∧
     parameterizations new =
       ((λ item, (item.2, (Network_apply net states internals update).1))
          <$> ds)).
Proof.
  intros Hnet Hds Hsuper.
  destruct (tf_regularization_losses_world states internals update net ds
              losses0 w) as [losses Hrun]; [done..|].
  eexists _, _, _. split; [exact Hrun|]. cbn [self calls].
  split_and!; [done|done| |].
  - intros Hoff. unfold entropy_summary. rewrite Hoff. simpl.
    rewrite !app_nil_r. split_and!.
    + by destruct (self w).
    + unfold applications. cbn [omap list_omap].
      apply regularization_loss_calls_projections.
    + unfold parameterizations. cbn [omap list_omap].
      apply regularization_loss_calls_projections.
  - intros Hon. rewrite Hon. split.
    + unfold applications. cbn [omap list_omap]. rewrite omap_app.
      fold (applications (CallRegularizationLoss <$> PyDict.values ds)).
      rewrite (proj1 (regularization_loss_calls_projections _)).
      cbn [omap list_omap app].
      fold (applications
              (ds ≫= calls_of_entropy
                       (Network_apply net states internals update).1)).
      by rewrite (proj1 (calls_of_entropy_projections _ _)).
    + unfold parameterizations. cbn [omap list_omap]. rewrite omap_app.
      fold (parameterizations (CallRegularizationLoss <$> PyDict.values ds)).
      rewrite (proj2 (regularization_loss_calls_projections _)).
      cbn [omap list_omap app].
      apply calls_of_entropy_projections.
Qed.

Lemma float_ge0_not_gt0 (x : float) :
  PrimFloat.leb 0 x = true → PrimFloat.ltb 0 x = false →
  PrimFloat.eqb x 0 = true.
Proof.
  rewrite leb_spec, ltb_spec, FloatAxioms.eqb_spec, Prim2SF_zero.
  unfold SFleb, SFltb, SFeqb.
  by destruct (Prim2SF x) as [[]|[]| |[] ? ?].
Qed.

(** X11. For a value of [entropy_regularization] that the constructor
    accepts, [tf_regularization_losses] leaves the entropy term out exactly
    when the value is [None] or equal to 0.0: with a superclass that returns
    no ['entropy'] entry, the losses have none in exactly that case. *)
Theorem entropy_term_of_accepted_value (states internals : Obj)
    (update : bool) (net : Network) (ds : dict Distribution)
    (losses0 : dict Tensor) (w : world) :
  network (self w) = Some net →
  distributions (self w) = Some ds →
  super_tf_regularization_losses states internals update (self w)
    = inr losses0 →
  PyDict.get "entropy" losses0 = None →
  accepted (entropy_regularization (self w)) = true →
  ∃ losses w',
    tf_regularization_losses states internals update w = Ok (losses, w') ∧
    (PyDict.get "entropy" losses = None ↔
     entropy_regularization (self w) = None ∨
     ∃ er, entropy_regularization (self w) = Some er ∧
           PrimFloat.eqb er 0 = true).
Proof.
  intros Hnet Hds Hsuper Hnone Hacc.
  destruct (tf_regularization_losses_run states internals update net ds
              losses0 w) as [w' Hrun]; [done..|].
  eexists _, w'. split; [exact Hrun|].
  assert (PyDict.get "entropy" (losses_before_entropy net ds losses0) = None)
    as Hbefore by (by rewrite get_other_losses).
  destruct (entropy_regularization (self w)) as [er|]; [|by split; auto].
  simpl in Hacc. destruct (PrimFloat.ltb 0 er) eqn:Hlt.
  - rewrite dict_get_set_eq. split; [done|].
    intros [?|(er' & [= <-] & Heq)]; [done|].
    apply float_eq0_not_gt0 in Heq. congruence.
  - split; [|done]. intros _. right. exists er. split; [done|].
    by apply float_ge0_not_gt0.
Qed.

(** *** optimizer_arguments: an entry already there, a failing superclass *)

(** X12. [optimizer_arguments] binds ['fn_kl_divergence'] to the model's
    [fn_kl_divergence] whatever the superclass returned, and changes no other
    entry; when the superclass's arguments already have the key, its entry is
    replaced where it stands and the keys are unchanged. It assigns nothing
    and issues no call, and an exception of the superclass passes through. *)
Theorem optimizer_arguments_overrides (b : batch) (w : world) :
  (∀ arguments0,
     super_optimizer_arguments b (self w) = inr arguments0 →
     ∃ arguments,
       optimizer_arguments b w = Ok (arguments, w) ∧
       PyDict.get "fn_kl_divergence" arguments =
         Some (ArgTemplate (fn_kl_divergence (self w))) ∧
       (∀ k, k ≠ "fn_kl_divergence" →
             PyDict.get k arguments = PyDict.get k arguments0) ∧
       (is_Some (PyDict.get "fn_kl_divergence" arguments0) →
        PyDict.keys arguments = PyDict.keys arguments0) ∧
       (PyDict.wf arguments0 → PyDict.wf arguments)) ∧
  (∀ what,
     super_optimizer_arguments b (self w) = inl what →
     optimizer_arguments b w = Err (Raised what)).
Proof.
  split.
  - intros arguments0 Hsuper. eexists. split_and!.
    + unfold optimizer_arguments. run. rewrite Hsuper. by run.
    + apply dict_get_set_eq.
    + intros k Hk. by apply dict_get_set_ne.
    + intros Hin. rewrite dict_keys_set. unfold PyDict.mem.
      by rewrite bool_decide_eq_true_2.
    + apply dict_wf_set.
  - intros what Hsuper. unfold optimizer_arguments. run. by rewrite Hsuper.
Qed.

(** *** get_variables and get_summaries: nothing lost, nothing twice *)

Lemma entries_of_keys {A} (f : Distribution → list A)
    (ds l : dict Distribution) :
  PyDict.wf ds → l ⊆ ds →
  PyDict.keys l ≫= entries_of f ds = PyDict.values l ≫= f.
Proof.
  intros Hwf. unfold PyDict.keys, PyDict.values.
  induction l as [|[name d] l IH]; intros Hl; [done|].
  rewrite !fmap_cons, !bind_cons. cbn [fst snd]. f_equal.
  - unfold entries_of. rewrite (dict_elem_of_get name d ds); [done..|].
    apply Hl. left.
  - apply IH. intros x Hx. apply Hl. by right.
Qed.

Lemma distribution_entries_values {A} (f : Distribution → list A)
    (ds : dict Distribution) :
  PyDict.wf ds →
  distribution_entries f ds ≡ₚ PyDict.values ds ≫= f ∧
  (Sorted String.le (PyDict.keys ds) →
   distribution_entries f ds = PyDict.values ds ≫= f).
Proof.
  intros Hwf. unfold distribution_entries. split.
  - rewrite <- (entries_of_keys f ds ds) by done.
    unfold sorted. by rewrite merge_sort_Permutation.
  - intros Hsorted. rewrite <- (entries_of_keys f ds ds) by done.
    f_equal. apply (Sorted_unique String.le); [|done|].
    + apply Sorted_merge_sort, _.
    + apply merge_sort_Permutation.
Qed.

(** X13. In what [get_variables] and [get_summaries] return, every
    distribution of the dictionary contributes its entries exactly once: the
    result is a rearrangement of the superclass's entries, the network's and
    the distributions' entries taken in insertion order, and is that very
    list when the distributions were inserted in ascending order of their
    names. Neither method changes the model or issues a recorded call. *)
Theorem getters_keep_every_entry
    (include_submodules include_nontrainable : bool)
    (net : Network) (ds : dict Distribution)
    (model_variables : list TfVariable) (model_summaries : list TfSummary)
    (w : world) :
  network (self w) = Some net →
  distributions (self w) = Some ds →
  PyDict.wf ds →
  super_get_variables include_submodules include_nontrainable (self w)
    = inr model_variables →
  super_get_summaries (self w) = inr model_summaries →
  ∃ variables summaries,
    get_variables include_submodules include_nontrainable w
      = Ok (variables, w) ∧
    get_summaries w = Ok (summaries, w) ∧
    variables ≡ₚ
      model_variables ++ Network_get_variables net include_nontrainable ++
      (PyDict.values ds ≫=
         λ d, Distribution_get_variables d include_nontrainable) ∧
    summaries ≡ₚ
      model_summaries ++ Network_get_summaries net ++
      (PyDict.values ds ≫= Distribution_get_summaries) ∧
    (Sorted String.le (PyDict.keys ds) →
     variables =
       model_variables ++ Network_get_variables net include_nontrainable ++
       (PyDict.values ds ≫=
          λ d, Distribution_get_variables d include_nontrainable) ∧
     summaries =
       model_summaries ++ Network_get_summaries net ++
       (PyDict.values ds ≫= Distribution_get_summaries)).
Proof.
  intros Hnet Hds Hwf Hsv Hss. eexists _, _. split_and!.
  - unfold get_variables. run. rewrite Hsv. run. rewrite Hnet. run.
    rewrite (per_distribution_run _ ds) by done.
    by rewrite <- (assoc_L (++)).
  - unfold get_summaries. run. rewrite Hss. run. rewrite Hnet. run.
    by rewrite (per_distribution_run _ ds) by done.
  - do 2 f_equiv. by apply distribution_entries_values.
  - do 2 f_equiv. by apply distribution_entries_values.
  - intros Hsorted. split; do 2 f_equal;
      by apply distribution_entries_values.
Qed.

End properties.

(** * The statements on the example *)

Section examples.
#[local] Existing Instance Example.framework.
#[local] Existing Instance Example.memory_model.
Local Open Scope Z_scope.

Abbreviation F0 := Example.framework.
Abbreviation model0 := (Example.start Example.model).

Lemma example_three_params (embedding : Z) (l : dict Distribution) :
  three_params (F:=F0) embedding l.
Proof. intros name d _. simpl. lia. Defined.

(** With [requires_deterministic] set, both samples are deterministic
    although [deterministic] is false. *)
Lemma sample_deterministic_flag_witness :
  ∃ r new,
    tf_actions_and_internals (F:=F0) 3 0 false (Example.start Example.q_model)
      = Ok (r, {| self := Example.q_model; calls := [] ++ new |}) ∧
    samples new =
      [(Gaussian (VTuple []) Example.labels, [10; 11; 12], true);
       (Bernoulli (VTuple []) Example.labels, [10; 11; 12], true)] ∧
    (true = true → Forall (λ s, s.2 = true) (samples new)).
Proof.
  apply (sample_deterministic_flag (F:=F0) 3 0 false 7 Example.dists
           (Example.start Example.q_model));
    [reflexivity | reflexivity | apply example_three_params].
Defined.

(** [turn] gets a Gaussian and [brake] a Bernoulli. *)
Lemma create_distributions_chooses_witness :
  ∃ ds,
    create_distributions (F:=F0) (Example.start Example.fresh)
      = Ok (ds, Example.start Example.fresh) ∧
    PyDict.wf ds ∧
    ∀ name action, (name, action) ∈ Example.actions → typed action →
      ∃ d, expected_distribution Example.fresh name action = Some d ∧
           PyDict.get name ds = Some d ∧
           ∀ d', (name, d') ∈ PyDict.items ds → d' = d.
Proof.
  apply (create_distributions_chooses (F:=F0) (Example.start Example.fresh)).
  - apply (bool_decide_unpack _). vm_compute. exact I.
  - intros name action Hin. right.
    apply elem_of_cons in Hin as [[= -> ->]|Hin].
    { exists (VStr "float"). simpl. split_and!; [done|by eauto|done|].
      by intros _ [??]. }
    apply elem_of_cons in Hin as [[= -> ->]|Hin].
    { exists (VStr "bool"). simpl. split_and!; [done|by eauto|done|done]. }
    by apply elem_of_nil in Hin.
Defined.

Lemma entropy_loss_entry_witness :
  ∃ losses w',
    tf_regularization_losses (F:=F0) 3 0 true model0 = Ok (losses, w') ∧
    (PyDict.get "entropy" ([] : dict Z) = None →
     (is_Some (PyDict.get "entropy" losses) ↔
      ∃ er, Some 0.25%float = Some er ∧ PrimFloat.ltb 0 er = true)) ∧
    (∀ er, Some 0.25%float = Some er → PrimFloat.ltb 0 er = true →
       PyDict.get "entropy" losses =
         Some (tf_scale (PrimFloat.opp er)
                 (tf_reduce_mean
                    (tf_reduce_mean
                       (tf_concat
                          ((λ item, entropy_of 10 item.2) <$> Example.dists)
                          1) 1) 0))) ∧
    ((Some 0.25%float = None ∨
      ∃ er, Some 0.25%float = Some er ∧ PrimFloat.eqb er 0 = true) →
     PyDict.get "entropy" losses = PyDict.get "entropy" ([] : dict Z)).
Proof.
  apply (entropy_loss_entry (F:=F0) 3 0 true 7 Example.dists [] model0);
    reflexivity.
Defined.

Lemma kl_divergence_of_stopped_parameters_witness :
  ∃ new,
    tf_kl_divergence (F:=F0) 3 0 0 0 0 0 0 true None model0 =
      Ok (0, {| self := Example.model; calls := [] ++ new |}) ∧
    applications new = [(3, 0, true, false)] ∧
    parameterizations new =
      [(Gaussian (VTuple []) Example.labels, 10);
       (Bernoulli (VTuple []) Example.labels, 10)] ∧
    kl_divergences new =
      [(Gaussian (VTuple []) Example.labels, [10; 11; 12], [10; 11; 12]);
       (Bernoulli (VTuple []) Example.labels, [10; 11; 12], [10; 11; 12])] ∧
    ∀ reference',
      tf_kl_divergence (F:=F0) 3 0 0 0 0 0 0 true reference' model0 =
      tf_kl_divergence (F:=F0) 3 0 0 0 0 0 0 true None model0.
Proof.
  apply (kl_divergence_of_stopped_parameters (F:=F0) 3 0 0 0 0 0 0 true None 7
           Example.dists model0); reflexivity.
Defined.

Lemma network_applied_once_witness :
  ∃ actions new,
    tf_actions_and_internals (F:=F0) 3 0 true model0 =
      Ok ((actions, 0), {| self := Example.model; calls := [] ++ new |}) ∧
    applications new = [(3, 0, false, true)] ∧
    parameterizations new =
      [(Gaussian (VTuple []) Example.labels, 10);
       (Bernoulli (VTuple []) Example.labels, 10)].
Proof.
  apply (network_applied_once (F:=F0) 3 0 true 7 Example.dists model0);
    [reflexivity | reflexivity | apply example_three_params].
Defined.

Lemma optimizer_arguments_adds_fn_kl_divergence_witness :
  ∃ arguments,
    optimizer_arguments (F:=F0) Example.a_batch model0
      = Ok (arguments, model0) ∧
    PyDict.items arguments =
      Example.super_arguments ++
      [("fn_kl_divergence", ArgTemplate (Some Example.template))] ∧
    PyDict.keys arguments = ["time"; "fn_kl_divergence"] ∧
    PyDict.get "fn_kl_divergence" arguments =
      Some (ArgTemplate (Some Example.template)) ∧
    ∀ k v, PyDict.get k Example.super_arguments = Some v →
           PyDict.get k arguments = Some v.
Proof.
  apply (optimizer_arguments_adds_fn_kl_divergence (F:=F0)
           Example.a_batch Example.super_arguments model0); reflexivity.
Defined.

(** Two distributions: every name carries its action's prefix. *)
Lemma named_tensor_prefix_witness :
  ∃ r new,
    tf_actions_and_internals (F:=F0) 3 0 false model0 =
      Ok (r, {| self := Example.model; calls := [] ++ new |}) ∧
    named_tensors new =
      [("turn_logits", 10); ("turn_probabilities", 11);
       ("turn_state_value", 12);
       ("brake_logits", 10); ("brake_probabilities", 11);
       ("brake_state_value", 12)] ∧
    (∀ name, name_prefix 2 name = name +:+ "_" ↔ (1 < 2)%nat) ∧
    (2%nat = 1%nat →
     (named_tensors new).*1 = ["logits"; "probabilities"; "state_value"]).
Proof.
  apply (named_tensor_prefix (F:=F0) 3 0 false 7 Example.dists model0);
    [reflexivity | reflexivity | apply example_three_params].
Defined.

(** [brake] was inserted after [turn] and comes first. *)
Lemma distribution_entries_in_name_order_witness :
  get_variables (F:=F0) false false model0 =
    Ok (["global-timestep"; "dense0/W"; "dense0/b"; "bernoulli/logit";
         "gaussian/mean"; "gaussian/log_stddev"], model0) ∧
  get_summaries (F:=F0) model0 = Ok (["dense0/activations"], model0) ∧
  StronglySorted String.le (sorted ["turn"; "brake"]) ∧
  sorted ["turn"; "brake"] ≡ₚ ["turn"; "brake"] ∧
  ∀ ds' w',
    PyDict.wf Example.dists →
    ds' ≡ₚ Example.dists →
    network (self w') = Some 7 →
    distributions (self w') = Some ds' →
    super_get_variables false false (self w') = inr ["global-timestep"] →
    super_get_summaries (self w') = inr [] →
    returned (get_variables (F:=F0) false false w')
      = returned (get_variables (F:=F0) false false model0) ∧
    returned (get_summaries (F:=F0) w')
      = returned (get_summaries (F:=F0) model0).
Proof.
  apply (distribution_entries_in_name_order (F:=F0) false false 7
           Example.dists ["global-timestep"] [] model0); reflexivity.
Defined.

(** C5 as stated fails on a NaN: the assertion of line 60 fails although the
    value is not below 0.0. *)
Lemma init_rejects_nan :
  __init__ (F:=F0) Example.args (VTuple []) None (Some nan) false
    (Example.start Example.fresh) = Err (AssertionError 60) ∧
  PrimFloat.ltb nan 0 = false.
Proof. split; reflexivity. Qed.

(** ** The further properties on the examples *)

Abbreviation F1 := Example2.short_framework.

Lemma example_dists_wf : PyDict.wf Example.dists.
Proof. apply (bool_decide_unpack _). vm_compute. exact I. Defined.

(** [note] has a type without a distribution and is passed over. *)
Lemma create_distributions_order_witness :
  ∃ ds,
    create_distributions (F:=F0) (Example.start Example2.mixed)
      = Ok (ds, Example.start Example2.mixed) ∧
    PyDict.keys ds = ["turn"; "brake"] ∧
    sublist (PyDict.keys ds) ["turn"; "note"; "brake"] ∧
    ∀ name action, (name, action) ∈ Example2.mixed_actions →
      ¬ overridden Example2.mixed name → ¬ typed action →
      PyDict.get name ds = None.
Proof.
  apply (create_distributions_order (F:=F0) (Example.start Example2.mixed)).
  - apply (bool_decide_unpack _). vm_compute. exact I.
  - intros name action Hin. right.
    apply elem_of_cons in Hin as [[= -> ->]|Hin].
    { exists (VStr "float"). simpl. split_and!; [done|by eauto|done|].
      by intros _ [??]. }
    apply elem_of_cons in Hin as [[= -> ->]|Hin].
    { exists (VStr "text"). simpl. by split_and!. }
    apply elem_of_cons in Hin as [[= -> ->]|Hin].
    { exists (VStr "bool"). simpl. split_and!; [done|by eauto|done|done]. }
    by apply elem_of_nil in Hin.
Defined.

(** [gas] has a lower bound and no upper bound. *)
Lemma create_distributions_missing_key_witness :
  create_distributions (F:=F0) (Example.start Example2.unbounded)
    = Err (KeyError "max_value") ∧
  ¬ complete Example2.gas ∧
  "max_value" ∈ ["type"; "shape"; "num_actions"; "max_value"].
Proof.
  apply (create_distributions_missing_key (F:=F0)
           (Example.start Example2.unbounded)
           [("turn", [("type", VStr "float"); ("shape", VTuple [])])]
           [("brake", [("type", VStr "bool"); ("shape", VTuple [])])]
           "gas" "max_value" Example2.gas).
  - reflexivity.
  - intros name action Hin. right.
    apply elem_of_cons in Hin as [[= -> ->]|Hin];
      [|by apply elem_of_nil in Hin].
    exists (VStr "float"). simpl. split_and!; [done|by eauto|done|].
    by intros _ [??].
  - by intros [??].
  - reflexivity.
Defined.


(** The Bernoulli of [brake] yields two tensors: index 2 is out of range. *)
Lemma tf_actions_and_internals_short_parameters_witness :
  tf_actions_and_internals (F:=F1) 3 0 false
    {| self := Example2.short_model; calls := [] |} = Err IndexError.
Proof.
  apply (tf_actions_and_internals_short_parameters (F:=F1) 3 0 false 7
           [("turn", Gaussian (VTuple []) Example.labels)] []
           "brake" (Bernoulli (VTuple []) Example.labels)
           {| self := Example2.short_model; calls := [] |}).
  - reflexivity.
  - reflexivity.
  - intros name d Hin.
    apply elem_of_cons in Hin as [[= -> ->]|Hin];
      [|by apply elem_of_nil in Hin].
    simpl. lia.
  - simpl. lia.
Defined.

Lemma tf_actions_and_internals_actions_witness :
  ∃ actions internals' w',
    tf_actions_and_internals (F:=F0) 3 0 true model0
      = Ok ((actions, internals'), w') ∧
    self w' = Example.model ∧
    PyDict.keys actions = ["turn"; "brake"] ∧
    ∀ name d, (name, d) ∈ Example.dists →
      PyDict.get name actions =
        Some (Distribution_sample d (Distribution_parameterize d 10) true).
Proof.
  apply (tf_actions_and_internals_actions (F:=F0) 3 0 true 7 Example.dists
           model0);
    [reflexivity | reflexivity | apply example_dists_wf
    | apply example_three_params].
Defined.

Lemma named_tensors_distinct_witness :
  ∃ r new,
    tf_actions_and_internals (F:=F0) 3 0 false model0 =
      Ok (r, {| self := Example.model; calls := [] ++ new |}) ∧
    (named_tensors new).*1 =
      ["turn_logits"; "turn_probabilities"; "turn_state_value";
       "brake_logits"; "brake_probabilities"; "brake_state_value"] ∧
    NoDup (named_tensors new).*1.
Proof.
  apply (named_tensors_distinct (F:=F0) 3 0 false 7 Example.dists model0);
    [reflexivity | reflexivity | apply example_dists_wf
    | apply example_three_params].
Defined.

(** The example network has the loss 3, the distributions have none. *)
Lemma regularization_loss_entries_witness :
  ∃ losses w',
    tf_regularization_losses (F:=F0) 3 0 true model0 = Ok (losses, w') ∧
    PyDict.get "network" losses = Some 3 ∧
    PyDict.get "distributions" losses = None ∧
    ∀ k, k ∉ ["network"; "distributions"; "entropy"] →
         PyDict.get k losses = PyDict.get k ([] : dict Z).
Proof.
  apply (regularization_loss_entries (F:=F0) 3 0 true 7 Example.dists []
           model0); reflexivity.
Defined.

Lemma regularization_losses_effects_witness :
  ∃ losses w' new,
    tf_regularization_losses (F:=F0) 3 0 true model0 = Ok (losses, w') ∧
    calls w' = [] ++ new ∧
    self w' = set_summaries ["entropy"] Example.model ∧
    (true = false →
     self w' = Example.model ∧ applications new = [] ∧
     parameterizations new = []) ∧
    (true = true →
     applications new = [(3, 0, true, false)] ∧
     parameterizations new =
       [(Gaussian (VTuple []) Example.labels, 10);
        (Bernoulli (VTuple []) Example.labels, 10)]).
Proof.
  apply (regularization_losses_effects (F:=F0) 3 0 true 7 Example.dists []
           model0); reflexivity.
Defined.

Lemma entropy_term_of_accepted_value_witness :
  ∃ losses w',
    tf_regularization_losses (F:=F0) 3 0 true model0 = Ok (losses, w') ∧
    (PyDict.get "entropy" losses = None ↔
     Some 0.25%float = None ∨
     ∃ er, Some 0.25%float = Some er ∧ PrimFloat.eqb er 0 = true).
Proof.
  apply (entropy_term_of_accepted_value (F:=F0) 3 0 true 7 Example.dists []
           model0); reflexivity.
Defined.

(** [turn] was inserted before [brake]: the result is a rearrangement. *)
Lemma getters_keep_every_entry_witness :
  ∃ variables summaries,
    get_variables (F:=F0) false false model0 = Ok (variables, model0) ∧
    get_summaries (F:=F0) model0 = Ok (summaries, model0) ∧
    variables ≡ₚ
      ["global-timestep"; "dense0/W"; "dense0/b"; "gaussian/mean";
       "gaussian/log_stddev"; "bernoulli/logit"] ∧
    summaries ≡ₚ ["dense0/activations"] ∧
    (Sorted String.le ["turn"; "brake"] →
     variables =
       ["global-timestep"; "dense0/W"; "dense0/b"; "gaussian/mean";
        "gaussian/log_stddev"; "bernoulli/logit"] ∧
     summaries = ["dense0/activations"]).
Proof.
  apply (getters_keep_every_entry (F:=F0) false false 7 Example.dists
           ["global-timestep"] [] model0);
    [reflexivity | reflexivity | apply example_dists_wf
    | reflexivity | reflexivity].
Defined.

End examples.
